(** * The response-caching plugin of proxy.py

    A shallow embedding of [proxy/plugin/cache/base.py]
    (class [BaseCacheResponsesPlugin]) and the properties of its four
    lifecycle hooks.

    The hooks are methods of a Python object: they read and assign
    attributes of [self], call into a pluggable store, push packets on the
    client connection and write log records; each of them may raise.
    They are embedded in a state-and-exception monad in which, as in
    Python, the effects performed before a [raise] are kept. *)

From Stdlib Require Import ZArith String Ascii List Bool Lia DecimalString.
From Stdlib Require Import RelationClasses.
From ExtLib Require Import Structures.Monad Structures.MonadExc Structures.MonadState.
Import ListNotations MonadNotation.

Open Scope Z_scope.
Open Scope string_scope.
Open Scope monad_scope.

(** ** Data *)

(** Python [bytes]: a [string] is a sequence of 8-bit characters. *)
Definition bytes : Type := string.

(** A [memoryview] over a chunk of the upstream response. *)
Definition memoryview : Type := bytes.

(** Modelled from the spec: the modules of [proxy.http] that declare the
    constants below are not among the sources.  A message is tagged with
    one of two kinds (two distinct integers), a tunnel is asked for with
    the CONNECT method, and the two synthesized errors are 502 and 500. *)
Module httpParserTypes.
Definition REQUEST_PARSER : Z := 1.
Definition RESPONSE_PARSER : Z := 2.
End httpParserTypes.

Module httpMethods.
Definition CONNECT : bytes := "CONNECT".
End httpMethods.

Module httpStatusCodes.
Definition BAD_GATEWAY : Z := 502.
Definition INTERNAL_SERVER_ERROR : Z := 500.
End httpStatusCodes.

(** Modelled from the spec: the class [HttpParser] of [proxy.http.parser]
    is not among the sources; these are the attributes the plugin reads.
    One class serves for requests and for responses; [type] tells which.
    [code] holds the bytes of the status line, hence the [int(msg.code)] of
    the plugin.  [headers] maps a lower-cased name to the pair
    (name, value), in insertion order. *)
Record HttpParser : Type := mkHttpParser {
  type : Z;
  method : option bytes;
  host : option bytes;
  port : option Z;
  path : option bytes;
  code : option bytes;
  reason : option bytes;
  headers : list (bytes * (bytes * bytes));
  body : option bytes
}.

(** A Python [dict] from bytes to bytes, in insertion order. *)
Definition dict : Type := list (bytes * bytes).

(** [d[k] = v]: an existing key keeps its place and takes the new value. *)
Fixpoint dict_setitem (d : dict) (k v : bytes) : dict :=
  match d with
  | [] => [(k, v)]
  | (k', v') :: d' =>
      if String.eqb k' k then (k', v) :: d'
      else (k', v') :: dict_setitem d' k v
  end.

(** [d.get(k)]. *)
Fixpoint dict_get (d : dict) (k : bytes) : option bytes :=
  match d with
  | [] => None
  | (k', v) :: d' => if String.eqb k' k then Some v else dict_get d' k
  end.

(** [msg.headers.values()]. *)
Definition values (h : list (bytes * (bytes * bytes))) : list (bytes * bytes) :=
  map snd h.

(** [{k: v for k, v in vals}]. *)
Definition dict_comprehension (vals : list (bytes * bytes)) : dict :=
  fold_left (fun d kv => dict_setitem d (fst kv) (snd kv)) vals [].

(** Modelled from the spec: [build_http_response] of [proxy.common.utils]
    is not among the sources.  It serialises a status code, a reason, a
    dict of headers and a body; a packet is identified here with the
    arguments it is built from. *)
Record HttpResponse : Type := mkHttpResponse {
  status_code : Z;
  rsp_reason : option bytes;
  rsp_headers : dict;
  rsp_body : option bytes
}.

Definition build_http_response (status_code : Z) (reason : option bytes)
    (headers : dict) (body : option bytes) : HttpResponse :=
  mkHttpResponse status_code reason headers body.

(** The instances of [Exception] that occur.  [OSError] stands for whatever
    a store raises on an I/O fault. *)
Inductive Exception : Type :=
| AssertionError
| AttributeError (msg : string)
| ValueError (msg : string)
| OSError (msg : string).

Inductive Result (A : Type) : Type :=
| Return (a : A)
| Raise (e : Exception).
Arguments Return {A} a.
Arguments Raise {A} e.

(** ** The builtin [int] on bytes

    Base 10: optional surrounding ASCII whitespace, an optional sign, then
    digits in which single underscores may separate digits.  (The
    interpreter's configurable cap on the length of the digit string is
    left out.) *)

Definition isspace (c : ascii) : bool :=
  let n := nat_of_ascii c in
  (((9 <=? n) && (n <=? 13)) || (n =? 32))%nat.

Definition digit (c : ascii) : option Z :=
  let n := nat_of_ascii c in
  if ((48 <=? n) && (n <=? 57))%nat then Some (Z.of_nat n - 48) else None.

Fixpoint lstrip (s : string) : string :=
  match s with
  | String c s' => if isspace c then lstrip s' else s
  | EmptyString => EmptyString
  end.

Fixpoint all_space (s : string) : bool :=
  match s with
  | String c s' => isspace c && all_space s'
  | EmptyString => true
  end.

(** What was read last while scanning the digits. *)
Inductive scanned : Type := Nothing | Digit | Underscore.

Definition after_digit (p : scanned) : bool :=
  match p with Digit => true | _ => false end.

Fixpoint scan_digits (acc : Z) (prev : scanned) (s : string) : option Z :=
  match s with
  | EmptyString => if after_digit prev then Some acc else None
  | String c s' =>
      match digit c with
      | Some d => scan_digits (10 * acc + d) Digit s'
      | None =>
          if Ascii.eqb c "_"%char then
            if after_digit prev then scan_digits acc Underscore s' else None
          else if after_digit prev && all_space s then Some acc
          else None
      end
  end.

Definition int (b : bytes) : option Z :=
  match lstrip b with
  | String "-"%char s => option_map Z.opp (scan_digits 0 Nothing s)
  | String "+"%char s => scan_digits 0 Nothing s
  | s => scan_digits 0 Nothing s
  end.

(** ['%s' % n] for an integer. *)
Definition str_of_int (n : Z) : string := NilZero.string_of_int (Z.to_int n).

(** ** The store interface *)

(** Modelled from the spec: the abstract class [CacheStore] of
    [proxy/plugin/cache/store/base.py] is not among the sources.  A store
    is an object with a state of its own; each operation may change that
    state and either returns or raises. *)
Class CacheStore (S : Type) : Type := {
  is_cached : S -> HttpParser -> Result bool * S;
  cache_request : S -> HttpParser -> Result HttpParser * S;
  cache_response_chunk : S -> memoryview -> Result memoryview * S;
  close : S -> Result unit * S
}.

(** The store operations a hook invoked, in order (a ghost trace). *)
Inductive StoreCall : Type :=
| Is_cached (request : HttpParser)
| Cache_request (request : HttpParser)
| Cache_response_chunk (chunk : memoryview)
| Close.

(** The records passed to [logger.info]; rendering them to text is left
    to the logging module. *)
Inductive LogRecord : Type :=
| Upstream_connexion (host : option bytes) (port : Z) (path : option bytes)
| Client_request (host : option bytes) (port : Z) (path : option bytes)
| Caching_disabled (e : Exception).

(** [request.port if request.port else 0] *)
Definition port_or_0 (request : HttpParser) : Z :=
  match port request with
  | Some p => if Z.eqb p 0 then 0 else p
  | None => 0
  end.

(** [request.method == httpMethods.CONNECT] *)
Definition is_CONNECT (request : HttpParser) : bool :=
  match method request with
  | Some m => String.eqb m httpMethods.CONNECT
  | None => false
  end.

(** ** The plugin and the world it runs in *)

Section Plugin.

Context {S : Type} `{CacheStore S}.

(** [PROXY_AGENT_HEADER_VALUE] of [proxy.common.constants]: the text
    the proxy identifies itself with. *)
Variable PROXY_AGENT_HEADER_VALUE : bytes.

(** [enabled] and [local] are the two class attributes (events shared
    by all workers); [store], [__local] and [__enabled] are the instance
    attributes set by [__init__]; [client] is the buffer of the client
    connection; [log] and [calls] record what was logged and which store
    operations were invoked. *)
Record State : Type := mkState {
  enabled : bool;
  local : bool;
  store : option S;
  __local : option bool;
  __enabled : option bool;
  client : list HttpResponse;
  log : list LogRecord;
  calls : list StoreCall
}.

Definition set_toggles (e l : bool) (s : State) : State :=
  mkState e l (store s) (__local s) (__enabled s) (client s) (log s) (calls s).

Definition set_store_attr (st : option S) (s : State) : State :=
  mkState (enabled s) (local s) st (__local s) (__enabled s) (client s)
    (log s) (calls s).

Definition set___local (v : option bool) (s : State) : State :=
  mkState (enabled s) (local s) (store s) v (__enabled s) (client s)
    (log s) (calls s).

Definition set___enabled (v : option bool) (s : State) : State :=
  mkState (enabled s) (local s) (store s) (__local s) v (client s)
    (log s) (calls s).

Definition set_client (q : list HttpResponse) (s : State) : State :=
  mkState (enabled s) (local s) (store s) (__local s) (__enabled s) q
    (log s) (calls s).

Definition set_log (l : list LogRecord) (s : State) : State :=
  mkState (enabled s) (local s) (store s) (__local s) (__enabled s)
    (client s) l (calls s).

Definition set_calls (c : list StoreCall) (s : State) : State :=
  mkState (enabled s) (local s) (store s) (__local s) (__enabled s)
    (client s) (log s) c.

(** A method body: it runs on a state, ends by returning or raising, and
    leaves a state. *)
Definition M (A : Type) : Type := State -> Result A * State.

#[export] Instance Monad_M : Monad M := {|
  ret := fun _ a s => (Return a, s);
  bind := fun _ _ m k s =>
    match m s with
    | (Return a, s') => k a s'
    | (Raise e, s') => (Raise e, s')
    end
|}.

(** [catch m h] is [try: m except Exception as e: h e]. *)
#[export] Instance MonadExc_M : MonadExc Exception M := {|
  raise := fun _ e s => (Raise e, s);
  catch := fun _ m h s =>
    match m s with
    | (Return a, s') => (Return a, s')
    | (Raise e, s') => h e s'
    end
|}.

#[export] Instance MonadState_M : MonadState State M := {|
  get := fun s => (Return s, s);
  put := fun s' _ => (Return tt, s')
|}.

Definition modify (f : State -> State) : M unit :=
  s <- get ;; put (f s).

(** [assert b] *)
Definition assert (b : bool) : M unit :=
  if b then ret tt else raise AssertionError.

(** [logger.info(...)] *)
Definition logger_info (r : LogRecord) : M unit :=
  modify (fun s => set_log (log s ++ [r]) s).

(** [self.client.queue(memoryview(packet))] *)
Definition client_queue (packet : HttpResponse) : M unit :=
  modify (fun s => set_client (client s ++ [packet]) s).

(** [self.store.op(...)]: the call is recorded, the store moves to its
    new state, and the outcome of the operation is the outcome of the
    call. *)
Definition call_store {A : Type} (c : StoreCall) (op : S -> Result A * S)
    : M A :=
  fun s =>
    match store s with
    | None =>
        (Raise (AttributeError "'NoneType' object has no attribute"), s)
    | Some st =>
        let (r, st') := op st in
        (r, set_calls (calls s ++ [c]) (set_store_attr (Some st') s))
    end.

(** Truth value of an [Optional[bool]] attribute. *)
Definition truth (o : option bool) : bool :=
  match o with Some b => b | None => false end.

Definition is_not_None {A : Type} (o : option A) : bool :=
  match o with Some _ => true | None => false end.

(** The state [__init__] leaves, given the value of the two events. *)
Definition __init__ (e l : bool) : State :=
  mkState e l None None None [] [] [].

Definition set_store (st : S) : M unit :=
  modify (set_store_attr (Some st)).

(** The 502 packet of [handle_client_request]. *)
Definition BAD_GATEWAY_response : HttpResponse :=
  build_http_response httpStatusCodes.BAD_GATEWAY
    (Some "Bad gateway")
    [("Server", PROXY_AGENT_HEADER_VALUE); ("Connection", "close")]
    (Some "Ressource has not been cached yet. Please allow upstream.").

(** The 500 packet of [handle_client_request]. *)
Definition INTERNAL_SERVER_ERROR_response : HttpResponse :=
  build_http_response httpStatusCodes.INTERNAL_SERVER_ERROR
    (Some "Internal server error")
    [("Server", PROXY_AGENT_HEADER_VALUE); ("Connection", "close")]
    None.

(** [int(msg.code) if msg.code is not None else 0] *)
Definition code_or_0 (msg : HttpParser) : M Z :=
  match code msg with
  | Some c =>
      match int c with
      | Some n => ret n
      | None => raise (ValueError "invalid literal for int() with base 10")
      end
  | None => ret 0
  end.

(** The packet replaying a cached response. *)
Definition cached_response (n : Z) (msg : HttpParser) : HttpResponse :=
  build_http_response n (reason msg)
    (dict_comprehension (values (headers msg))) (body msg).

(** In the bodies below a [try] block yields [Some v] when it executed
    [return v] and [None] when control falls out of the [try] statement. *)

Definition before_upstream_connection (request : HttpParser)
    : M (option HttpParser) :=
  modify (fun s => set___enabled (Some (enabled s)) s) ;;
  modify (fun s => set___local (Some (local s)) s) ;;
  s <- get ;;
  if negb (truth (__enabled s)) then ret (Some request) else
  assert (is_not_None (store s)) ;;
  logger_info (Upstream_connexion (host request) (port_or_0 request)
                 (path request)) ;;
  if is_CONNECT request then
    ret (if negb (truth (__local s)) then Some request else None)
  else
  r <- catch
         (hit <- call_store (Is_cached request)
                   (fun st => is_cached st request) ;;
          ret (if hit : bool then Some None else None))
         (fun e => logger_info (Caching_disabled e) ;; ret None) ;;
  match r with
  | Some v => ret v
  | None => ret (Some request)
  end.

Definition handle_client_request (request : HttpParser)
    : M (option HttpParser) :=
  s <- get ;;
  assert (is_not_None (__enabled s)) ;;
  assert (is_not_None (__local s)) ;;
  if negb (truth (__enabled s)) then ret (Some request) else
  assert (is_not_None (store s)) ;;
  logger_info (Client_request (host request) (port_or_0 request)
                 (path request)) ;;
  if is_CONNECT request then ret (Some request) else
  r <- catch
         (msg <- call_store (Cache_request request)
                   (fun st => cache_request st request) ;;
          if Z.eqb (type msg) httpParserTypes.REQUEST_PARSER then
            if truth (__local s) then
              client_queue BAD_GATEWAY_response ;;
              ret (Some None)
            else ret (Some (Some msg))
          else if Z.eqb (type msg) httpParserTypes.RESPONSE_PARSER then
            n <- code_or_0 msg ;;
            client_queue (cached_response n msg) ;;
            ret (Some None)
          else
            raise (ValueError
                     ("Bad HTTPParser type: " ++ str_of_int (type msg))))
         (fun e => logger_info (Caching_disabled e) ;; ret None) ;;
  match r with
  | Some v => ret v
  | None =>
      catch
        (hit <- call_store (Is_cached request)
                  (fun st => is_cached st request) ;;
         if hit : bool then client_queue INTERNAL_SERVER_ERROR_response
         else ret tt)
        (fun e => logger_info (Caching_disabled e)) ;;
      ret (Some request)
  end.

Definition handle_upstream_chunk (chunk : memoryview) : M memoryview :=
  s <- get ;;
  assert (is_not_None (__enabled s)) ;;
  assert (is_not_None (__local s)) ;;
  if negb (truth (__enabled s)) then ret chunk else
  assert (is_not_None (store s)) ;;
  call_store (Cache_response_chunk chunk)
    (fun st => cache_response_chunk st chunk).

Definition on_upstream_connection_close : M unit :=
  s <- get ;;
  assert (is_not_None (__enabled s)) ;;
  assert (is_not_None (__local s)) ;;
  if negb (truth (__enabled s)) then ret tt else
  assert (is_not_None (store s)) ;;
  call_store Close close.

(** ** Runs of a connection *)

(** What may happen to a plugin instance: the host engine calls a hook or
    [set_store], or some worker sets or clears the two events. *)
Inductive Event : Type :=
| Before_upstream_connection (request : HttpParser)
| Handle_client_request (request : HttpParser)
| Handle_upstream_chunk (chunk : memoryview)
| On_upstream_connection_close
| Set_store (st : S)
| Toggle (e l : bool).

(** The state an event leaves, whether the hook returned or raised. *)
Definition step (s : State) (ev : Event) : State :=
  match ev with
  | Before_upstream_connection request =>
      snd (before_upstream_connection request s)
  | Handle_client_request request => snd (handle_client_request request s)
  | Handle_upstream_chunk chunk => snd (handle_upstream_chunk chunk s)
  | On_upstream_connection_close => snd (on_upstream_connection_close s)
  | Set_store st => snd (set_store st s)
  | Toggle e l => set_toggles e l s
  end.

Definition run (evs : list Event) (s : State) : State :=
  fold_left step evs s.

Definition is_before_upstream_connection (ev : Event) : bool :=
  match ev with Before_upstream_connection _ => true | _ => false end.

(** The per-connection snapshot, once both attributes are assigned. *)
Definition snapshot (s : State) : option (bool * bool) :=
  match __enabled s, __local s with
  | Some e, Some l => Some (e, l)
  | _, _ => None
  end.

(** ** Relations between the state before and the state after *)

(** A method body keeps [R] when [R] relates the state it starts in to the
    state it leaves, whether it returns or raises. *)
Definition keeps (R : State -> State -> Prop) {A : Type} (m : M A) : Prop :=
  forall s, R s (snd (m s)).

Definition same_snapshot (s s' : State) : Prop :=
  __enabled s' = __enabled s /\ __local s' = __local s.

Definition same_client (s s' : State) : Prop := client s' = client s.

End Plugin.

(** ** Stores used as test doubles *)

(** A store that answers from a script: [hit] is the outcome of every
    [is_cached] call and [resolved] the outcome of every [cache_request]
    call; chunks are relayed as they are. *)
Record ScriptedStore : Type := mkScripted {
  hit : Result bool;
  resolved : Result HttpParser
}.

#[export] Instance CacheStore_Scripted : CacheStore ScriptedStore := {|
  is_cached := fun st _ => (hit st, st);
  cache_request := fun st _ => (resolved st, st);
  cache_response_chunk := fun st chunk => (Return chunk, st);
  close := fun st => (Return tt, st)
|}.

(** [GET /get] with [Host: example.test]. *)
Definition GET_get : HttpParser :=
  mkHttpParser httpParserTypes.REQUEST_PARSER (Some "GET")
    (Some "example.test") None (Some "/get") None None
    [("host", ("Host", "example.test"))] None.

(** [CONNECT example.test:443]. *)
Definition CONNECT_tunnel : HttpParser :=
  mkHttpParser httpParserTypes.REQUEST_PARSER (Some "CONNECT")
    (Some "example.test") (Some 443) None None None [] None.

(** A cached [200 OK] with the body of the end-to-end test. *)
Definition cached_200 : HttpParser :=
  mkHttpParser httpParserTypes.RESPONSE_PARSER None None None None
    (Some "200") (Some "OK") [("content-length", ("Content-Length", "19"))]
    (Some "Response From Cache").

(** [GET /get] as a store may hand it on, the path rewritten. *)
Definition GET_index : HttpParser :=
  mkHttpParser httpParserTypes.REQUEST_PARSER (Some "GET")
    (Some "example.test") None (Some "/index") None None
    [("host", ("Host", "example.test"))] None.

(** A cached response whose status line holds no number. *)
Definition cached_abc : HttpParser :=
  mkHttpParser httpParserTypes.RESPONSE_PARSER None None None None
    (Some "abc") (Some "OK") [] (Some "Response From Cache").

(** Nothing cached; [cache_request] hands the request back. *)
Definition miss : ScriptedStore := mkScripted (Return false) (Return GET_get).

(** Nothing cached; [cache_request] hands on a rewritten request. *)
Definition rewriting : ScriptedStore :=
  mkScripted (Return false) (Return GET_index).

(** The request is cached with a [200 OK]. *)
Definition cached : ScriptedStore :=
  mkScripted (Return true) (Return cached_200).

(** The cache entry of the request is damaged. *)
Definition damaged : ScriptedStore :=
  mkScripted (Return true) (Return cached_abc).

(** [cache_request] fails on the disk while [is_cached] finds an entry. *)
Definition faulty : ScriptedStore :=
  mkScripted (Return true) (Raise (OSError "No space left on device")).

(** The identification the examples run with. *)
Definition agent : bytes := "proxy.py".

(** A plugin instance with nothing queued, logged or called yet: the two
    events as in [toggles], the given store handle, the given snapshot. *)
Definition plugin (toggles : bool * bool) (st : option ScriptedStore)
    (snap : option (bool * bool)) : State :=
  mkState (fst toggles) (snd toggles) st (option_map snd snap)
    (option_map fst snap) [] [] [].

(** ** What a run may change *)

Section Frames.

Context {S : Type} `{CacheStore S}.

(** The two events are as they were. *)
Definition same_toggles (s s' : @State S) : Prop :=
  enabled s' = enabled s /\ local s' = local s.

(** A store handle is held after exactly when one was held before. *)
Definition same_handle (s s' : @State S) : Prop :=
  is_not_None (store s') = is_not_None (store s).

(** The client buffer, the log and the trace of store calls were only
    appended to. *)
Definition grows (s s' : @State S) : Prop :=
  (exists q, client s' = (client s ++ q)%list) /\
  (exists l, log s' = (log s ++ l)%list) /\
  (exists c, calls s' = (calls s ++ c)%list).

(** Nothing was queued, logged or asked of the store. *)
Definition quiet (s s' : @State S) : Prop :=
  client s' = client s /\ log s' = log s /\ calls s' = calls s.

Definition is_toggle (ev : @Event S) : bool :=
  match ev with Toggle _ _ => true | _ => false end.

(** [CacheResponsesPlugin.__init__] of [cache_responses.py]: the base
    [__init__], then [set_store] on the disk store it builds.  The
    constructor of [OnDiskCacheStore] is not among the sources; the store
    it returns is the argument [disk_store].  (The attribute [disk_store]
    names the same object as [store].) *)
Definition CacheResponsesPlugin__init__ (disk_store : S) (e l : bool)
    : @State S :=
  snd (set_store disk_store (__init__ e l)).

Definition is_set_store (ev : @Event S) : bool :=
  match ev with Set_store _ => true | _ => false end.

End Frames.

(** ** A store that is out of order *)

(** Every operation of this store raises; it has no state. *)
Inductive BrokenStore : Type := broken.

Definition EIO : Exception := OSError "Input/output error".

#[export] Instance CacheStore_Broken : CacheStore BrokenStore := {|
  is_cached := fun st _ => (Raise EIO, st);
  cache_request := fun st _ => (Raise EIO, st);
  cache_response_chunk := fun st _ => (Raise EIO, st);
  close := fun st => (Raise EIO, st)
|}.

(** ** The test utilities *)

(** The plugin classes [tests/plugin/utils.py] imports. *)
Inductive PluginClass : Type :=
| ModifyPostDataPlugin
| ProposedRestApiPlugin
| RedirectToCustomServerPlugin
| FilterByUpstreamHostPlugin
| CacheResponsesPlugin
| ManInTheMiddlePlugin
| FilterByURLRegexPlugin.

(** [test_name.startswith(p)] *)
Definition startswith (test_name p : string) : bool := prefix p test_name.

Definition get_plugin_by_test_name (test_name : string) : PluginClass :=
  if String.eqb test_name "test_modify_post_data_plugin" then
    ModifyPostDataPlugin
  else if String.eqb test_name "test_proposed_rest_api_plugin" then
    ProposedRestApiPlugin
  else if String.eqb test_name "test_redirect_to_custom_server_plugin" then
    RedirectToCustomServerPlugin
  else if String.eqb test_name "test_filter_by_upstream_host_plugin" then
    FilterByUpstreamHostPlugin
  else if startswith test_name "test_cache_responses_plugin" then
    CacheResponsesPlugin
  else if String.eqb test_name "test_man_in_the_middle_plugin" then
    ManInTheMiddlePlugin
  else if String.eqb test_name "test_filter_by_url_regex_plugin" then
    FilterByURLRegexPlugin
  else ModifyPostDataPlugin.

(** * Properties *)

Section Properties.

Context {S : Type} `{CacheStore S}.
Variable PROXY_AGENT_HEADER_VALUE : bytes.

Local Abbreviation State := (@State S).
Local Abbreviation M := (@M S).
Local Abbreviation handle_client_request :=
  (handle_client_request PROXY_AGENT_HEADER_VALUE).
Local Abbreviation step := (step PROXY_AGENT_HEADER_VALUE).
Local Abbreviation run := (run PROXY_AGENT_HEADER_VALUE).

(** ** Relations every step of a method body respects

    A relation between the state before and the state after that is
    reflexive and transitive and that the elementary effects respect is
    respected by any body built from them, whether it returns or
    raises. *)
Section Kept.

Context (R : State -> State -> Prop) {R_preorder : PreOrder R}.

Lemma keeps_ret {A : Type} (a : A) : keeps R (ret a).
Proof. intro s. reflexivity. Qed.

Lemma keeps_raise {A : Type} (e : Exception) : keeps R (raise e : M A).
Proof. intro s. reflexivity. Qed.

Lemma keeps_get : keeps R get.
Proof. intro s. reflexivity. Qed.

Lemma keeps_assert (b : bool) : keeps R (assert b).
Proof. destruct b; [apply keeps_ret | apply keeps_raise]. Qed.

Lemma keeps_bind {A B : Type} (m : M A) (k : A -> M B) :
  keeps R m -> (forall a, keeps R (k a)) -> keeps R (bind m k).
Proof.
  intros Hm Hk s. cbn. specialize (Hm s).
  destruct (m s) as [[a | e] s1]; cbn in *.
  - transitivity s1; [exact Hm | apply Hk].
  - exact Hm.
Qed.

Lemma keeps_catch {A : Type} (m : M A) (h : Exception -> M A) :
  keeps R m -> (forall e, keeps R (h e)) -> keeps R (catch m h).
Proof.
  intros Hm Hh s. cbn. specialize (Hm s).
  destruct (m s) as [[a | e] s1]; cbn in *.
  - exact Hm.
  - transitivity s1; [exact Hm | apply Hh].
Qed.

Lemma keeps_modify (f : State -> State) :
  (forall s, R s (f s)) -> keeps R (modify f).
Proof. intros Hf s. cbn. apply Hf. Qed.

Lemma keeps_call_store {A : Type} (c : StoreCall) (op : S -> Result A * S) :
  (forall s st, R s (set_calls (calls s ++ [c]) (set_store_attr (Some st) s))) ->
  keeps R (call_store c op).
Proof.
  intros Hc s. unfold call_store.
  destruct (store s) as [st |]; cbn; [| reflexivity].
  destruct (op st) as [r st']. cbn. apply Hc.
Qed.

End Kept.

Ltac keeps_step :=
  lazymatch goal with
  | |- keeps ?R (ret _) => apply (keeps_ret R)
  | |- keeps ?R (raise _) => apply (keeps_raise R)
  | |- keeps ?R get => apply (keeps_get R)
  | |- keeps ?R (assert _) => apply (keeps_assert R)
  | |- keeps ?R (modify _) => apply (keeps_modify R); intros ?
  | |- keeps ?R (call_store _ _) => apply (keeps_call_store R); intros ? ?
  | |- keeps ?R (bind _ _) => apply (keeps_bind R); [ | intros ? ]
  | |- keeps ?R (catch _ _) => apply (keeps_catch R); [ | intros ? ]
  | |- keeps _ (if ?b then _ else _) => destruct b
  | |- keeps _ (match ?x with _ => _ end) => destruct x
  end.

(** *** The snapshot is written by [before_upstream_connection] only *)

#[local] Instance same_snapshot_preorder : PreOrder (@same_snapshot S).
Proof.
  split.
  - intro s. split; reflexivity.
  - intros s1 s2 s3 [H12 H12'] [H23 H23']. split; congruence.
Qed.

Lemma handle_client_request_same_snapshot (request : HttpParser) :
  keeps same_snapshot (handle_client_request request).
Proof.
  unfold handle_client_request, code_or_0, logger_info, client_queue.
  repeat keeps_step; split; reflexivity.
Qed.

Lemma handle_upstream_chunk_same_snapshot (chunk : memoryview) :
  keeps same_snapshot (handle_upstream_chunk chunk).
Proof.
  unfold handle_upstream_chunk. repeat keeps_step; split; reflexivity.
Qed.

Lemma on_upstream_connection_close_same_snapshot :
  keeps same_snapshot on_upstream_connection_close.
Proof.
  unfold on_upstream_connection_close. repeat keeps_step; split; reflexivity.
Qed.

(** *** Elementary facts *)

Lemma is_CONNECT_true (request : HttpParser) :
  is_CONNECT request = true <-> method request = Some httpMethods.CONNECT.
Proof.
  unfold is_CONNECT. destruct (method request) as [m |].
  - rewrite String.eqb_eq. split; congruence.
  - split; discriminate.
Qed.

Lemma is_CONNECT_false (request : HttpParser) :
  is_CONNECT request = false <-> method request <> Some httpMethods.CONNECT.
Proof.
  rewrite <- is_CONNECT_true. destruct (is_CONNECT request); split; congruence.
Qed.

Lemma snapshot_None (s : State) :
  snapshot s = None <-> __enabled s = None \/ __local s = None.
Proof.
  unfold snapshot. destruct (__enabled s), (__local s); split;
    intros; try discriminate; auto; destruct H0; discriminate.
Qed.

Lemma snapshot_Some (s : State) (e l : bool) :
  snapshot s = Some (e, l) <-> __enabled s = Some e /\ __local s = Some l.
Proof.
  unfold snapshot. destruct (__enabled s), (__local s); split;
    try discriminate; try (intros [? ?]; discriminate).
  - intros [= -> ->]. auto.
  - intros [[= ->] [= ->]]. reflexivity.
Qed.

Lemma same_snapshot_eq (s s' : State) :
  same_snapshot s s' -> snapshot s' = snapshot s.
Proof. intros [He Hl]. unfold snapshot. rewrite He, Hl. reflexivity. Qed.

(** *** The three later hooks without a snapshot *)

Lemma handle_client_request_unset (s : State) (request : HttpParser) :
  snapshot s = None ->
  handle_client_request request s = (Raise AssertionError, s).
Proof.
  rewrite snapshot_None. unfold handle_client_request. cbn.
  destruct (__enabled s), (__local s); intros [? | ?]; try discriminate;
    reflexivity.
Qed.

Lemma handle_upstream_chunk_unset (s : State) (chunk : memoryview) :
  snapshot s = None ->
  handle_upstream_chunk chunk s = (Raise AssertionError, s).
Proof.
  rewrite snapshot_None. unfold handle_upstream_chunk. cbn.
  destruct (__enabled s), (__local s); intros [? | ?]; try discriminate;
    reflexivity.
Qed.

Lemma on_upstream_connection_close_unset (s : State) :
  snapshot s = None ->
  on_upstream_connection_close s = (Raise AssertionError, s).
Proof.
  rewrite snapshot_None. unfold on_upstream_connection_close. cbn.
  destruct (__enabled s), (__local s); intros [? | ?]; try discriminate;
    reflexivity.
Qed.

(** *** Runs without [before_upstream_connection] *)

Lemma step_same_snapshot (s : State) (ev : Event) :
  is_before_upstream_connection ev = false -> same_snapshot s (step s ev).
Proof.
  destruct ev; unfold step, is_before_upstream_connection;
    intros Hev; try discriminate.
  - apply handle_client_request_same_snapshot.
  - apply handle_upstream_chunk_same_snapshot.
  - apply on_upstream_connection_close_same_snapshot.
  - split; reflexivity.
  - split; reflexivity.
Qed.

Lemma run_same_snapshot (evs : list Event) (s : State) :
  existsb is_before_upstream_connection evs = false ->
  same_snapshot s (run evs s).
Proof.
  revert s. induction evs as [| ev evs IH]; intros s Hevs; cbn in *.
  - reflexivity.
  - apply orb_false_iff in Hevs. destruct Hevs as [Hev Hevs].
    transitivity (step s ev).
    + apply step_same_snapshot, Hev.
    + apply IH, Hevs.
Qed.

(** ** The hooks and the snapshot *)

(** C7.  On a plugin instance on which [before_upstream_connection] has not
    been called yet (whatever else was called since [__init__]), each of
    [handle_client_request], [handle_upstream_chunk] and
    [on_upstream_connection_close] raises [AssertionError] instead of
    returning, and leaves the state as it found it. *)
Theorem hooks_raise_before_snapshot :
  forall (e l : bool) (evs : list Event) (request : HttpParser)
         (chunk : memoryview),
    existsb is_before_upstream_connection evs = false ->
    let s := run evs (__init__ e l) in
    handle_client_request request s = (Raise AssertionError, s) /\
    handle_upstream_chunk chunk s = (Raise AssertionError, s) /\
    on_upstream_connection_close s = (Raise AssertionError, s).
Proof.
  intros e l evs request chunk Hevs s.
  assert (Hs : snapshot s = None).
  { unfold s. rewrite (same_snapshot_eq _ _ (run_same_snapshot evs _ Hevs)).
    reflexivity. }
  split; [| split].
  - apply handle_client_request_unset, Hs.
  - apply handle_upstream_chunk_unset, Hs.
  - apply on_upstream_connection_close_unset, Hs.
Qed.

(** [before_upstream_connection] assigns both attributes from the events
    before anything else, whatever they held and however it ends. *)
Lemma before_upstream_connection_snapshot (s : State) (request : HttpParser) :
  snapshot (snd (before_upstream_connection request s))
  = Some (enabled s, local s).
Proof.
  apply snapshot_Some.
  unfold before_upstream_connection, call_store. cbn.
  destruct (enabled s); cbn; [| split; reflexivity].
  destruct (store s) as [st |] eqn:Hst; cbn; [| split; reflexivity].
  destruct (is_CONNECT request); cbn; [split; reflexivity |].
  rewrite Hst.
  destruct (is_cached st request) as [[[|] | e] st']; cbn; split; reflexivity.
Qed.

(** ** The plugin when disabled *)

(** C2.  With the [enabled] event clear, [before_upstream_connection]
    returns the request it was given and does nothing but take the
    snapshot; with a snapshot whose [enabled] part is false,
    [handle_client_request] returns the request, [handle_upstream_chunk]
    returns the chunk, [on_upstream_connection_close] returns, and each
    leaves the whole state, the trace of store calls included, as it was.
    The store attribute is arbitrary: it may hold any store or none. *)
Theorem disabled_hooks_pass_through :
  forall (s : State) (request : HttpParser) (chunk : memoryview),
    (enabled s = false ->
     before_upstream_connection request s
     = (Return (Some request),
        set___local (Some (local s)) (set___enabled (Some false) s))) /\
    (forall l : bool, snapshot s = Some (false, l) ->
     handle_client_request request s = (Return (Some request), s) /\
     handle_upstream_chunk chunk s = (Return chunk, s) /\
     on_upstream_connection_close s = (Return tt, s)).
Proof.
  intros s request chunk. split.
  - intros He. unfold before_upstream_connection. cbn. rewrite He. cbn.
    reflexivity.
  - intros l Hs. apply snapshot_Some in Hs. destruct Hs as [He Hl].
    unfold handle_client_request, handle_upstream_chunk,
      on_upstream_connection_close.
    cbn. rewrite He, Hl. cbn. auto.
Qed.

(** ** The store handle *)

(** C10.  Without a store handle, a hook that runs enabled raises
    [AssertionError] and calls no store operation, whatever the request
    is, a CONNECT included: [before_upstream_connection] when the
    [enabled] event is set, the other three when the snapshot says
    enabled.  Hence a hook that returns without a store handle ran with
    the [enabled] part of the snapshot false. *)
Theorem enabled_hooks_require_store :
  forall (s : State) (request : HttpParser) (chunk : memoryview),
    store s = None ->
    (enabled s = true ->
     fst (before_upstream_connection request s) = Raise AssertionError /\
     calls (snd (before_upstream_connection request s)) = calls s) /\
    (__enabled s = Some true ->
     handle_client_request request s = (Raise AssertionError, s) /\
     handle_upstream_chunk chunk s = (Raise AssertionError, s) /\
     on_upstream_connection_close s = (Raise AssertionError, s)) /\
    (forall v, fst (before_upstream_connection request s) = Return v ->
     __enabled (snd (before_upstream_connection request s)) = Some false) /\
    (forall v, fst (handle_client_request request s) = Return v ->
     __enabled s = Some false) /\
    (forall v, fst (handle_upstream_chunk chunk s) = Return v ->
     __enabled s = Some false) /\
    (forall v, fst (on_upstream_connection_close s) = Return v ->
     __enabled s = Some false).
Proof.
  intros s request chunk Hst.
  split; [| split; [| split; [| split; [| split]]]].
  - intros He. unfold before_upstream_connection. cbn.
    rewrite He, Hst. cbn. split; reflexivity.
  - intros He.
    unfold handle_client_request, handle_upstream_chunk,
      on_upstream_connection_close.
    cbn. rewrite He, Hst. destruct (__local s); cbn; auto.
  - intros v. unfold before_upstream_connection. cbn. rewrite Hst.
    destruct (enabled s); cbn; [discriminate | reflexivity].
  - intros v. unfold handle_client_request. cbn. rewrite Hst.
    destruct (__enabled s) as [[|] |], (__local s); cbn;
      try discriminate; reflexivity.
  - intros v. unfold handle_upstream_chunk. cbn. rewrite Hst.
    destruct (__enabled s) as [[|] |], (__local s); cbn;
      try discriminate; reflexivity.
  - intros v. unfold on_upstream_connection_close. cbn. rewrite Hst.
    destruct (__enabled s) as [[|] |], (__local s); cbn;
      try discriminate; reflexivity.
Qed.

(** ** [before_upstream_connection] when enabled *)

(** C3, as the code has it.  With the [enabled] event set and a store in
    place (without one the hook fails its assertion before it looks at the
    request),
    [before_upstream_connection] returns the request for a CONNECT when
    the [local] event is clear and [None] when it is set; for any other
    request it returns [None] when [is_cached] answers true, and the
    request when [is_cached] answers false or raises, the exception being
    logged and not propagated. *)
Theorem before_upstream_connection_enabled :
  forall (s : State) (st : S) (request : HttpParser),
    enabled s = true ->
    store s = Some st ->
    let r := fst (before_upstream_connection request s) in
    let s' := snd (before_upstream_connection request s) in
    (method request = Some httpMethods.CONNECT -> local s = false ->
     r = Return (Some request)) /\
    (method request = Some httpMethods.CONNECT -> local s = true ->
     r = Return None) /\
    (method request <> Some httpMethods.CONNECT ->
     fst (is_cached st request) = Return true -> r = Return None) /\
    (method request <> Some httpMethods.CONNECT ->
     fst (is_cached st request) = Return false ->
     r = Return (Some request)) /\
    (method request <> Some httpMethods.CONNECT ->
     forall e, fst (is_cached st request) = Raise e ->
     r = Return (Some request) /\
     log s' = (log s ++ [Upstream_connexion (host request)
                           (port_or_0 request) (path request);
                         Caching_disabled e])%list).
Proof.
  intros s st request He Hst r s'. subst r s'.
  unfold before_upstream_connection, call_store. cbn.
  rewrite He, Hst. cbn.
  split; [| split; [| split; [| split]]].
  - intros Hm Hl. apply is_CONNECT_true in Hm. rewrite Hm, Hl. reflexivity.
  - intros Hm Hl. apply is_CONNECT_true in Hm. rewrite Hm, Hl. reflexivity.
  - intros Hm Hc. apply is_CONNECT_false in Hm. rewrite Hm. cbn. rewrite Hst.
    destruct (is_cached st request) as [r0 st']. cbn in Hc. subst r0.
    reflexivity.
  - intros Hm Hc. apply is_CONNECT_false in Hm. rewrite Hm. cbn. rewrite Hst.
    destruct (is_cached st request) as [r0 st']. cbn in Hc. subst r0.
    reflexivity.
  - intros Hm e Hc. apply is_CONNECT_false in Hm. rewrite Hm. cbn.
    rewrite Hst.
    destruct (is_cached st request) as [r0 st']. cbn in Hc. subst r0.
    cbn. rewrite <- app_assoc. split; reflexivity.
Qed.

(** ** [handle_client_request] when the store answers *)

(** The hook up to its first [try], for a request other than CONNECT on an
    enabled plugin with a store: what remains is the [try] statement on the
    store's answer. *)
Ltac enter_handle_client_request He Hl Hst Hm :=
  unfold handle_client_request, call_store, code_or_0; cbn;
  rewrite He, Hl; cbn; rewrite Hst; cbn;
  apply is_CONNECT_false in Hm; rewrite Hm; cbn; rewrite Hst.

(** C4, as the code has it.  On an enabled plugin whose snapshot says
    local, for a request other than CONNECT to which [cache_request]
    answers with a request-kind message, [handle_client_request] queues for
    the client exactly one packet, the 502 with reason [Bad gateway], the
    headers [Server] and [Connection: close] and the body
    [Ressource has not been cached yet. Please allow upstream.], calls the
    store once, and returns [None]. *)
Theorem local_miss_bad_gateway :
  forall (s : State) (st : S) (request msg : HttpParser),
    snapshot s = Some (true, true) ->
    store s = Some st ->
    method request <> Some httpMethods.CONNECT ->
    fst (cache_request st request) = Return msg ->
    type msg = httpParserTypes.REQUEST_PARSER ->
    fst (handle_client_request request s) = Return None /\
    client (snd (handle_client_request request s))
    = (client s ++
       [build_http_response 502 (Some "Bad gateway")
          [("Server", PROXY_AGENT_HEADER_VALUE); ("Connection", "close")]
          (Some "Ressource has not been cached yet. Please allow upstream.")])%list /\
    calls (snd (handle_client_request request s))
    = (calls s ++ [Cache_request request])%list.
Proof.
  intros s st request msg Hs Hst Hm Hc Ht.
  apply snapshot_Some in Hs. destruct Hs as [He Hl].
  enter_handle_client_request He Hl Hst Hm.
  destruct (cache_request st request) as [r0 st1]. cbn in Hc. subst r0.
  cbn. rewrite Ht. cbn. auto.
Qed.

(** C5, as the code has it.  On an enabled plugin, for a request other
    than CONNECT to which [cache_request] answers with a response-kind
    message whose code is absent or converts to an integer,
    [handle_client_request] queues for the client exactly one packet, built
    from that integer (0 for an absent code) and the reason, headers and
    body of the message, calls the store once, and returns [None]. *)
Theorem cached_response_replayed :
  forall (s : State) (st : S) (l : bool) (request msg : HttpParser) (n : Z),
    snapshot s = Some (true, l) ->
    store s = Some st ->
    method request <> Some httpMethods.CONNECT ->
    fst (cache_request st request) = Return msg ->
    type msg = httpParserTypes.RESPONSE_PARSER ->
    match code msg with
    | Some c => int c = Some n
    | None => n = 0
    end ->
    fst (handle_client_request request s) = Return None /\
    client (snd (handle_client_request request s))
    = (client s ++
       [build_http_response n (reason msg)
          (dict_comprehension (values (headers msg))) (body msg)])%list /\
    calls (snd (handle_client_request request s))
    = (calls s ++ [Cache_request request])%list.
Proof.
  intros s st l request msg n Hs Hst Hm Hc Ht Hn.
  apply snapshot_Some in Hs. destruct Hs as [He Hl].
  enter_handle_client_request He Hl Hst Hm.
  destruct (cache_request st request) as [r0 st1]. cbn in Hc. subst r0.
  cbn. rewrite Ht. cbn.
  destruct (code msg) as [c |]; [rewrite Hn | subst n]; cbn; auto.
Qed.

(** ** Recording *)

(** On an enabled plugin with a store, [handle_upstream_chunk] is one call
    of [cache_response_chunk], whose outcome is the outcome of the hook. *)
Lemma handle_upstream_chunk_enabled
    (s : State) (st : S) (l : bool) (chunk : memoryview) :
  snapshot s = Some (true, l) ->
  store s = Some st ->
  handle_upstream_chunk chunk s
  = (fst (cache_response_chunk st chunk),
     set_calls (calls s ++ [Cache_response_chunk chunk])
       (set_store_attr (Some (snd (cache_response_chunk st chunk))) s)).
Proof.
  intros Hs Hst. apply snapshot_Some in Hs. destruct Hs as [He Hl].
  unfold handle_upstream_chunk, call_store. cbn.
  rewrite He, Hl. cbn. rewrite Hst. cbn. rewrite Hst.
  destruct (cache_response_chunk st chunk); reflexivity.
Qed.

Lemma run_chunks_calls (chunks : list memoryview) :
  forall (s : State) (st : S) (l : bool),
    snapshot s = Some (true, l) ->
    store s = Some st ->
    calls (run (map Handle_upstream_chunk chunks) s)
    = (calls s ++ map Cache_response_chunk chunks)%list.
Proof.
  induction chunks as [| chunk chunks IH]; intros s st l Hs Hst.
  - cbn. rewrite app_nil_r. reflexivity.
  - unfold run. cbn [map fold_left].
    change (fold_left step ?evs ?x) with (run evs x).
    replace (step s (Handle_upstream_chunk chunk))
      with (snd (handle_upstream_chunk chunk s)) by reflexivity.
    rewrite (handle_upstream_chunk_enabled s st l chunk Hs Hst).
    cbn [snd].
    rewrite (IH _ (snd (cache_response_chunk st chunk)) l).
    + cbn. rewrite <- app_assoc. reflexivity.
    + exact Hs.
    + reflexivity.
Qed.

(** C9, as the code has it.  On an enabled plugin whose snapshot says not
    local, for a request other than CONNECT to which [cache_request]
    answers with a request-kind message, [handle_client_request] returns
    that message (the request itself when the store hands it back), queues
    nothing for the client and calls the store exactly once, with
    [cache_request]; the chunks that [handle_upstream_chunk] then receives
    are passed to [cache_response_chunk] one call each, in order, after
    that call. *)
Theorem miss_forwards_store_message :
  forall (s : State) (st : S) (request msg : HttpParser)
         (chunks : list memoryview),
    snapshot s = Some (true, false) ->
    store s = Some st ->
    method request <> Some httpMethods.CONNECT ->
    fst (cache_request st request) = Return msg ->
    type msg = httpParserTypes.REQUEST_PARSER ->
    let s1 := snd (handle_client_request request s) in
    fst (handle_client_request request s) = Return (Some msg) /\
    client s1 = client s /\
    calls s1 = (calls s ++ [Cache_request request])%list /\
    calls (run (map Handle_upstream_chunk chunks) s1)
    = (calls s ++ Cache_request request
         :: map Cache_response_chunk chunks)%list.
Proof.
  intros s st request msg chunks Hs Hst Hm Hc Ht s1.
  assert (Hs1 : s1 = set_calls (calls s ++ [Cache_request request])
                       (set_store_attr (Some (snd (cache_request st request)))
                          (set_log (log s ++ [Client_request (host request)
                                      (port_or_0 request) (path request)]) s))
                /\ fst (handle_client_request request s) = Return (Some msg)).
  { subst s1. pose proof Hs as Hs'.
    apply snapshot_Some in Hs'. destruct Hs' as [He Hl].
    enter_handle_client_request He Hl Hst Hm.
    destruct (cache_request st request) as [r0 st1]. cbn in Hc. subst r0.
    cbn. rewrite Ht. cbn. auto. }
  destruct Hs1 as [Hs1 Hr]. clearbody s1. subst s1.
  split; [exact Hr |]. split; [reflexivity |]. split; [reflexivity |].
  rewrite (run_chunks_calls chunks _ (snd (cache_request st request)) false).
  - cbn. rewrite <- app_assoc. reflexivity.
  - exact Hs.
  - reflexivity.
Qed.

(** ** [handle_client_request] when the store fails *)

(** C1.  [handle_client_request] never ends with an exception of the
    store: it returns, or it raises its own [AssertionError] before any
    store call, which happens only without a snapshot or, enabled, without
    a store handle.  When, on an enabled plugin with a store and for a
    request other than CONNECT, [cache_request] raises [e], or returns a
    message of neither kind (then [e] is the [ValueError] the hook raises
    itself), the hook logs [e], calls [is_cached] on the store as
    [cache_request] left it, queues the 500 packet when the answer is true,
    logs the exception when that call raises, and returns the request it
    was given. *)
Theorem handle_client_request_fails_open :
  forall (s : State) (request : HttpParser),
    ((exists v, fst (handle_client_request request s) = Return v) \/
     (handle_client_request request s = (Raise AssertionError, s) /\
      (snapshot s = None \/ (__enabled s = Some true /\ store s = None)))) /\
    (forall (st : S) (l : bool) (e : Exception),
       snapshot s = Some (true, l) ->
       store s = Some st ->
       method request <> Some httpMethods.CONNECT ->
       (fst (cache_request st request) = Raise e \/
        exists msg,
          fst (cache_request st request) = Return msg /\
          type msg <> httpParserTypes.REQUEST_PARSER /\
          type msg <> httpParserTypes.RESPONSE_PARSER /\
          e = ValueError ("Bad HTTPParser type: " ++ str_of_int (type msg))) ->
       let st1 := snd (cache_request st request) in
       let s' := snd (handle_client_request request s) in
       let entry := Client_request (host request) (port_or_0 request)
                      (path request) in
       fst (handle_client_request request s) = Return (Some request) /\
       calls s' = (calls s ++ [Cache_request request; Is_cached request])%list /\
       store s' = Some (snd (is_cached st1 request)) /\
       match fst (is_cached st1 request) with
       | Return true =>
           client s'
           = (client s ++
              [build_http_response 500 (Some "Internal server error")
                 [("Server", PROXY_AGENT_HEADER_VALUE);
                  ("Connection", "close")] None])%list /\
           log s' = (log s ++ [entry; Caching_disabled e])%list
       | Return false =>
           client s' = client s /\
           log s' = (log s ++ [entry; Caching_disabled e])%list
       | Raise e' =>
           client s' = client s /\
           log s' = (log s ++ [entry; Caching_disabled e;
                               Caching_disabled e'])%list
       end).
Proof.
  intros s request. split.
  - destruct (snapshot s) as [[en l] |] eqn:Hs.
    2:{ right. split; [apply handle_client_request_unset, Hs | auto]. }
    apply snapshot_Some in Hs. destruct Hs as [He Hl].
    unfold handle_client_request, call_store, code_or_0. cbn.
    rewrite He, Hl. cbn.
    destruct en; cbn; [| eauto].
    destruct (store s) as [st |] eqn:Hst; cbn; [| right; auto].
    destruct (is_CONNECT request); cbn; [eauto |]. rewrite Hst. left.
    destruct (cache_request st request) as [[msg | e] st1]; cbn.
    + destruct (type msg =? httpParserTypes.REQUEST_PARSER)%Z; cbn.
      { destruct l; cbn; eauto. }
      destruct (type msg =? httpParserTypes.RESPONSE_PARSER)%Z; cbn.
      { destruct (code msg) as [c |]; cbn; [| eauto].
        destruct (int c); cbn; [eauto |].
        destruct (is_cached st1 request) as [[[|] | e'] st2]; cbn; eauto. }
      destruct (is_cached st1 request) as [[[|] | e'] st2]; cbn; eauto.
    + destruct (is_cached st1 request) as [[[|] | e'] st2]; cbn; eauto.
  - intros st l e Hs Hst Hm Hfault st1 s' entry. subst st1 s' entry.
    apply snapshot_Some in Hs. destruct Hs as [He Hl].
    enter_handle_client_request He Hl Hst Hm.
    destruct (cache_request st request) as [r0 st1]. cbn [fst snd] in *.
    destruct Hfault as [Hr | [msg [Hr [Hreq [Hrsp He']]]]]; subst r0; cbn.
    + destruct (is_cached st1 request) as [[[|] | e'] st2]; cbn;
        rewrite <- ?app_assoc; auto.
    + apply Z.eqb_neq in Hreq, Hrsp. rewrite Hreq, Hrsp. cbn. subst e.
      destruct (is_cached st1 request) as [[[|] | e'] st2]; cbn;
        rewrite <- ?app_assoc; auto.
Qed.

(** ** The snapshot in use *)

(** The three later hooks never read the two events: run with the events
    changed, each ends the same way and leaves the same state, the events
    apart. *)
Lemma handle_client_request_ignores_events
    (s : State) (e l : bool) (request : HttpParser) :
  handle_client_request request (set_toggles e l s)
  = (fst (handle_client_request request s),
     set_toggles e l (snd (handle_client_request request s))).
Proof.
  unfold handle_client_request, call_store, code_or_0. cbn.
  destruct (__enabled s) as [[|] |]; cbn; try reflexivity;
    destruct (__local s) as [lc |]; cbn; try reflexivity.
  destruct (store s) as [st |] eqn:Hst; cbn; [| reflexivity].
  destruct (is_CONNECT request); cbn; [reflexivity |]. rewrite Hst.
  destruct (cache_request st request) as [[msg | ex] st1]; cbn.
  - destruct (type msg =? httpParserTypes.REQUEST_PARSER)%Z; cbn.
    { destruct lc; reflexivity. }
    destruct (type msg =? httpParserTypes.RESPONSE_PARSER)%Z; cbn.
    { destruct (code msg) as [c |]; cbn; [| reflexivity].
      destruct (int c); cbn; [reflexivity |].
      destruct (is_cached st1 request) as [[[|] | ex'] st2]; reflexivity. }
    destruct (is_cached st1 request) as [[[|] | ex'] st2]; reflexivity.
  - destruct (is_cached st1 request) as [[[|] | ex'] st2]; reflexivity.
Qed.

Lemma handle_upstream_chunk_ignores_events
    (s : State) (e l : bool) (chunk : memoryview) :
  handle_upstream_chunk chunk (set_toggles e l s)
  = (fst (handle_upstream_chunk chunk s),
     set_toggles e l (snd (handle_upstream_chunk chunk s))).
Proof.
  unfold handle_upstream_chunk, call_store. cbn.
  destruct (__enabled s) as [[|] |]; cbn; try reflexivity;
    destruct (__local s) as [lc |]; cbn; try reflexivity.
  destruct (store s) as [st |] eqn:Hst; cbn; [| reflexivity]. rewrite Hst.
  destruct (cache_response_chunk st chunk) as [[c | ex] st1]; reflexivity.
Qed.

Lemma on_upstream_connection_close_ignores_events
    (s : State) (e l : bool) :
  on_upstream_connection_close (set_toggles e l s)
  = (fst (on_upstream_connection_close s),
     set_toggles e l (snd (on_upstream_connection_close s))).
Proof.
  unfold on_upstream_connection_close, call_store. cbn.
  destruct (__enabled s) as [[|] |]; cbn; try reflexivity;
    destruct (__local s) as [lc |]; cbn; try reflexivity.
  destruct (store s) as [st |] eqn:Hst; cbn; [| reflexivity]. rewrite Hst.
  destruct (close st) as [[u | ex] st1]; reflexivity.
Qed.

(** C8, as the code has it.  Every call of [before_upstream_connection]
    takes the snapshot anew from the two events as they are at that call,
    and the calls of [handle_client_request], [handle_upstream_chunk] and
    [on_upstream_connection_close] that follow, until the next call of
    [before_upstream_connection], leave it as it is and act on it, even
    when the events are set or cleared in between.  They never read the
    events: with the events changed each ends the same way and leaves the
    same state.  When the snapshot says disabled they pass their input
    through and touch nothing, whatever the events now say; when it says
    enabled they go to the store, and it is the [local] part of the
    snapshot that decides between the 502 and forwarding the store's
    message. *)
Theorem snapshot_taken_by_before_upstream_connection :
  forall (s : State) (request : HttpParser) (evs : list Event),
    existsb is_before_upstream_connection evs = false ->
    let s1 := run (Before_upstream_connection request :: evs) s in
    snapshot s1 = Some (enabled s, local s) /\
    (forall (e' l' : bool) (request' : HttpParser) (chunk : memoryview),
       handle_client_request request' (set_toggles e' l' s1)
       = (fst (handle_client_request request' s1),
          set_toggles e' l' (snd (handle_client_request request' s1))) /\
       handle_upstream_chunk chunk (set_toggles e' l' s1)
       = (fst (handle_upstream_chunk chunk s1),
          set_toggles e' l' (snd (handle_upstream_chunk chunk s1))) /\
       on_upstream_connection_close (set_toggles e' l' s1)
       = (fst (on_upstream_connection_close s1),
          set_toggles e' l' (snd (on_upstream_connection_close s1)))) /\
    (enabled s = false ->
     forall (request' : HttpParser) (chunk : memoryview),
       handle_client_request request' s1 = (Return (Some request'), s1) /\
       handle_upstream_chunk chunk s1 = (Return chunk, s1) /\
       on_upstream_connection_close s1 = (Return tt, s1)) /\
    (enabled s = true ->
     forall (st : S) (request' msg : HttpParser) (chunk : memoryview),
       store s1 = Some st ->
       (fst (handle_upstream_chunk chunk s1)
        = fst (cache_response_chunk st chunk) /\
        calls (snd (handle_upstream_chunk chunk s1))
        = (calls s1 ++ [Cache_response_chunk chunk])%list) /\
       (fst (on_upstream_connection_close s1) = fst (close st) /\
        calls (snd (on_upstream_connection_close s1))
        = (calls s1 ++ [Close])%list) /\
       (method request' <> Some httpMethods.CONNECT ->
        fst (cache_request st request') = Return msg ->
        type msg = httpParserTypes.REQUEST_PARSER ->
        fst (handle_client_request request' s1)
        = (if local s then Return None else Return (Some msg)) /\
        client (snd (handle_client_request request' s1))
        = (client s1 ++
           if local s then [BAD_GATEWAY_response PROXY_AGENT_HEADER_VALUE]
           else [])%list /\
        calls (snd (handle_client_request request' s1))
        = (calls s1 ++ [Cache_request request'])%list)).
Proof.
  intros s request evs Hevs s1.
  assert (Hs1 : snapshot s1 = Some (enabled s, local s)).
  { subst s1. unfold run. cbn [fold_left].
    change (fold_left step evs ?x) with (run evs x).
    rewrite (same_snapshot_eq _ _ (run_same_snapshot evs _ Hevs)).
    unfold step. apply before_upstream_connection_snapshot. }
  clearbody s1.
  split; [exact Hs1 |]. split; [| split].
  - intros e' l' request' chunk. split; [| split].
    + apply handle_client_request_ignores_events.
    + apply handle_upstream_chunk_ignores_events.
    + apply on_upstream_connection_close_ignores_events.
  - intros Hoff request' chunk. rewrite Hoff in Hs1.
    apply snapshot_Some in Hs1. destruct Hs1 as [He Hl].
    unfold handle_client_request, handle_upstream_chunk,
      on_upstream_connection_close.
    cbn. rewrite He, Hl. cbn. auto.
  - intros Hon st request' msg chunk Hst. rewrite Hon in Hs1.
    split; [| split].
    + pose proof Hs1 as Hs1'. apply snapshot_Some in Hs1'.
      destruct Hs1' as [He Hl].
      unfold handle_upstream_chunk, call_store. cbn.
      rewrite He, Hl. cbn. rewrite Hst. cbn. rewrite Hst.
      destruct (cache_response_chunk st chunk); split; reflexivity.
    + pose proof Hs1 as Hs1'. apply snapshot_Some in Hs1'.
      destruct Hs1' as [He Hl].
      unfold on_upstream_connection_close, call_store. cbn.
      rewrite He, Hl. cbn. rewrite Hst. cbn. rewrite Hst.
      destruct (close st); split; reflexivity.
    + intros Hm Hc Ht. apply snapshot_Some in Hs1. destruct Hs1 as [He Hl].
      enter_handle_client_request He Hl Hst Hm.
      destruct (cache_request st request') as [r0 st1]. cbn in Hc. subst r0.
      cbn. rewrite Ht. cbn.
      destruct (local s); cbn; rewrite ?app_nil_r; auto.
Qed.

(** ** What is queued for the client *)

#[local] Instance same_client_preorder : PreOrder (@same_client S).
Proof.
  split.
  - intro s. reflexivity.
  - intros s1 s2 s3 H12 H23. unfold same_client in *. congruence.
Qed.

Lemma before_upstream_connection_same_client (request : HttpParser) :
  keeps same_client (before_upstream_connection request).
Proof.
  unfold before_upstream_connection, logger_info.
  repeat keeps_step; reflexivity.
Qed.

Lemma handle_upstream_chunk_same_client (chunk : memoryview) :
  keeps same_client (handle_upstream_chunk chunk).
Proof. unfold handle_upstream_chunk. repeat keeps_step; reflexivity. Qed.

Lemma on_upstream_connection_close_same_client :
  keeps same_client on_upstream_connection_close.
Proof.
  unfold on_upstream_connection_close. repeat keeps_step; reflexivity.
Qed.

(** Looking a name up in a dict built by comprehension: the last pair of
    that name decides. *)
Lemma dict_get_setitem_last (d : dict) (k v x : bytes) :
  dict_get (dict_setitem d k v) x
  = if String.eqb k x then Some v else dict_get d x.
Proof.
  induction d as [| [k' v'] d IH]; cbn; [reflexivity |].
  destruct (String.eqb_spec k' k) as [-> | Hne]; cbn.
  - destruct (String.eqb k x); reflexivity.
  - rewrite IH. destruct (String.eqb_spec k' x) as [-> | Hne'].
    + destruct (String.eqb_spec k x) as [-> | _]; [congruence | reflexivity].
    + reflexivity.
Qed.

Lemma dict_get_append (d1 d2 : dict) (x : bytes) :
  dict_get (d1 ++ d2)%list x
  = match dict_get d1 x with Some v => Some v | None => dict_get d2 x end.
Proof.
  induction d1 as [| [k v] d1 IH]; cbn; [reflexivity |].
  destruct (String.eqb k x); [reflexivity | exact IH].
Qed.

Lemma dict_get_comprehension (vals : list (bytes * bytes)) (x : bytes) :
  forall d : dict,
    dict_get (fold_left (fun d kv => dict_setitem d (fst kv) (snd kv)) vals d) x
    = match dict_get (rev vals) x with
      | Some v => Some v
      | None => dict_get d x
      end.
Proof.
  induction vals as [| [k v] vals IH]; intros d; cbn; [reflexivity |].
  rewrite IH, dict_get_append, dict_get_setitem_last. cbn.
  destruct (dict_get (rev vals) x); [reflexivity |].
  destruct (String.eqb k x); reflexivity.
Qed.

(** C6, as the code has it.  What [handle_client_request] queues for the
    client, case by case, on an enabled plugin with a store and for a
    request other than CONNECT: for a request-kind answer the 502 when the
    snapshot says local and nothing otherwise; for a response-kind answer
    whose code is absent or a number the replay; on the fail-open path the
    500 when [is_cached] answers true and nothing otherwise.  The 502 and
    the 500 are queued with the headers [Server], holding the proxy's
    identification, and [Connection: close], and no other.  The replay is
    queued with the dict built from the cached headers and nothing else:
    looking a name up in it, [Server] included, gives what the last cached
    header of that name holds.  In every other state
    [handle_client_request] queues nothing, and the other three hooks
    never queue anything. *)
Theorem synthesized_responses_headers :
  forall (s : State) (request : HttpParser) (chunk : memoryview),
    (forall (st : S) (l : bool),
       snapshot s = Some (true, l) ->
       store s = Some st ->
       method request <> Some httpMethods.CONNECT ->
       let queued := client (snd (handle_client_request request s)) in
       let fail_open :=
         queued
         = (client s ++
            match fst (is_cached (snd (cache_request st request)) request) with
            | Return true =>
                [build_http_response 500 (Some "Internal server error")
                   [("Server", PROXY_AGENT_HEADER_VALUE);
                    ("Connection", "close")] None]
            | _ => []
            end)%list in
       match fst (cache_request st request) with
       | Raise _ => fail_open
       | Return msg =>
           if (type msg =? httpParserTypes.REQUEST_PARSER)%Z then
             queued
             = (client s ++
                if l then
                  [build_http_response 502 (Some "Bad gateway")
                     [("Server", PROXY_AGENT_HEADER_VALUE);
                      ("Connection", "close")]
                     (Some "Ressource has not been cached yet. Please allow upstream.")]
                else [])%list
           else if (type msg =? httpParserTypes.RESPONSE_PARSER)%Z then
             match code msg with
             | None =>
                 queued
                 = (client s ++
                    [build_http_response 0 (reason msg)
                       (dict_comprehension (values (headers msg)))
                       (body msg)])%list
             | Some c =>
                 match int c with
                 | Some n =>
                     queued
                     = (client s ++
                        [build_http_response n (reason msg)
                           (dict_comprehension (values (headers msg)))
                           (body msg)])%list
                 | None => fail_open
                 end
             end
           else fail_open
       end) /\
    (snapshot s = None \/ __enabled s = Some false \/ store s = None \/
     method request = Some httpMethods.CONNECT ->
     client (snd (handle_client_request request s)) = client s) /\
    (forall (msg : HttpParser) (name : bytes),
       dict_get (dict_comprehension (values (headers msg))) name
       = dict_get (rev (values (headers msg))) name) /\
    client (snd (before_upstream_connection request s)) = client s /\
    client (snd (handle_upstream_chunk chunk s)) = client s /\
    client (snd (on_upstream_connection_close s)) = client s.
Proof.
  intros s request chunk.
  split; [| split; [| split; [| split; [| split]]]].
  - intros st l Hs Hst Hm queued fail_open. subst queued fail_open.
    apply snapshot_Some in Hs. destruct Hs as [He Hl].
    enter_handle_client_request He Hl Hst Hm.
    destruct (cache_request st request) as [[msg | e] st1]; cbn.
    + destruct (type msg =? httpParserTypes.REQUEST_PARSER)%Z; cbn.
      { destruct l; cbn; [reflexivity | symmetry; apply app_nil_r]. }
      destruct (type msg =? httpParserTypes.RESPONSE_PARSER)%Z; cbn.
      { destruct (code msg) as [c |]; cbn; [| reflexivity].
        destruct (int c); cbn; [reflexivity |].
        destruct (is_cached st1 request) as [[[|] | e'] st2]; cbn;
          [reflexivity | symmetry; apply app_nil_r
           | symmetry; apply app_nil_r]. }
      destruct (is_cached st1 request) as [[[|] | e'] st2]; cbn;
        [reflexivity | symmetry; apply app_nil_r | symmetry; apply app_nil_r].
    + destruct (is_cached st1 request) as [[[|] | e'] st2]; cbn;
        [reflexivity | symmetry; apply app_nil_r | symmetry; apply app_nil_r].
  - intros Hcase. unfold handle_client_request. cbn.
    destruct (__enabled s) as [[|] |] eqn:He; cbn; try reflexivity;
      destruct (__local s) as [l |] eqn:Hl; cbn; try reflexivity.
    destruct (store s) as [st |] eqn:Hst; cbn; [| reflexivity].
    destruct Hcase as [Hn | [Hoff | [Hno | Hm]]].
    + apply snapshot_None in Hn. destruct Hn; congruence.
    + discriminate.
    + discriminate.
    + apply is_CONNECT_true in Hm. rewrite Hm. reflexivity.
  - intros msg name. unfold dict_comprehension.
    rewrite dict_get_comprehension. cbn.
    destruct (dict_get (rev (values (headers msg))) name); reflexivity.
  - apply before_upstream_connection_same_client.
  - apply handle_upstream_chunk_same_client.
  - apply on_upstream_connection_close_same_client.
Qed.

(** * Further properties of the plugin *)

(** ** What no hook does *)

#[local] Instance same_toggles_preorder : PreOrder (@same_toggles S).
Proof.
  split.
  - intro s. split; reflexivity.
  - intros s1 s2 s3 [H12 H12'] [H23 H23']. split; congruence.
Qed.

#[local] Instance same_handle_preorder : PreOrder (@same_handle S).
Proof.
  split.
  - intro s. reflexivity.
  - intros s1 s2 s3 H12 H23. unfold same_handle in *. congruence.
Qed.

#[local] Instance grows_preorder : PreOrder (@grows S).
Proof.
  split.
  - intro s. repeat split; exists []; symmetry; apply app_nil_r.
  - intros s1 s2 s3 [[q1 Hq1] [[l1 Hl1] [c1 Hc1]]] [[q2 Hq2] [[l2 Hl2] [c2 Hc2]]].
    repeat split.
    + exists (q1 ++ q2)%list. rewrite Hq2, Hq1, app_assoc. reflexivity.
    + exists (l1 ++ l2)%list. rewrite Hl2, Hl1, app_assoc. reflexivity.
    + exists (c1 ++ c2)%list. rewrite Hc2, Hc1, app_assoc. reflexivity.
Qed.

(** A store call changes the handle only where there is one. *)
Lemma keeps_call_store_held (R : State -> State -> Prop) {R_preorder : PreOrder R}
    {A : Type} (c : StoreCall) (op : S -> Result A * S) :
  (forall s st0 st, store s = Some st0 ->
     R s (set_calls (calls s ++ [c]) (set_store_attr (Some st) s))) ->
  keeps R (call_store c op).
Proof.
  intros Hc s. unfold call_store.
  destruct (store s) as [st |] eqn:Hst; cbn; [| reflexivity].
  destruct (op st) as [r st']. cbn. apply (Hc s st st' Hst).
Qed.

Ltac keeps_step_held :=
  lazymatch goal with
  | |- keeps ?R (call_store _ _) =>
      apply (keeps_call_store_held R); intros ? ? ? ?
  | |- _ => keeps_step
  end.

Ltac unfold_hooks :=
  unfold before_upstream_connection, handle_client_request,
    handle_upstream_chunk, on_upstream_connection_close, set_store,
    code_or_0, logger_info, client_queue.

Ltac grows_done :=
  unfold grows; cbn; repeat split;
  first [ eexists; reflexivity | exists []; symmetry; apply app_nil_r ].

(** A goal on the state a method body leaves, as a goal on the body. *)
Ltac as_keeps :=
  lazymatch goal with
  | |- ?R ?s (snd (?m ?s)) => revert s; change (keeps R m)
  end.

Lemma step_same_toggles (s : State) (ev : Event) :
  is_toggle ev = false -> same_toggles s (step s ev).
Proof.
  destruct ev; unfold step, is_toggle; intros Hev; try discriminate;
    as_keeps; unfold_hooks; repeat keeps_step; split; reflexivity.
Qed.

Lemma step_same_handle (s : State) (ev : Event) :
  match ev with Set_store _ => False | _ => True end ->
  same_handle s (step s ev).
Proof.
  destruct ev; unfold step; intros Hev; try contradiction;
    try reflexivity;
    as_keeps; unfold_hooks; repeat keeps_step_held;
    unfold same_handle; cbn;
    try reflexivity;
    match goal with Hst : store _ = Some _ |- _ => rewrite Hst end;
    reflexivity.
Qed.

Lemma step_grows (s : State) (ev : Event) : grows s (step s ev).
Proof.
  destruct ev; unfold step;
    try (as_keeps; unfold_hooks; repeat keeps_step; grows_done).
  grows_done.
Qed.

Lemma run_keeps (R : State -> State -> Prop) {R_preorder : PreOrder R}
    (ok : Event -> bool) :
  (forall s ev, ok ev = true -> R s (step s ev)) ->
  forall evs s, forallb ok evs = true -> R s (run evs s).
Proof.
  intros Hstep. induction evs as [| ev evs IH]; intros s Hevs; cbn in *.
  - reflexivity.
  - apply andb_true_iff in Hevs. destruct Hevs as [Hev Hevs].
    transitivity (step s ev); [apply Hstep, Hev | apply IH, Hevs].
Qed.

(** X5.  No hook and no [set_store] sets or clears the two events: over
    any run in which no worker toggles them, they are as they were. *)
Theorem hooks_never_toggle :
  forall (evs : list Event) (s : State),
    existsb is_toggle evs = false ->
    enabled (run evs s) = enabled s /\ local (run evs s) = local s.
Proof.
  intros evs s Hevs.
  apply (run_keeps same_toggles (fun ev => negb (is_toggle ev))).
  - intros s0 ev Hev. apply step_same_toggles.
    destruct (is_toggle ev); [discriminate | reflexivity].
  - clear s. induction evs as [| ev evs IH]; cbn in *; [reflexivity |].
    apply orb_false_iff in Hevs. destruct Hevs as [Hev Hevs].
    rewrite Hev, (IH Hevs). reflexivity.
Qed.

(** X6.  Whatever is called, and however the calls end, the client
    buffer, the log and the trace of store calls are only appended to:
    what was queued stays queued, in the order it was queued. *)
Theorem run_appends_only :
  forall (evs : list Event) (s : State),
    (exists q, client (run evs s) = (client s ++ q)%list) /\
    (exists l, log (run evs s) = (log s ++ l)%list) /\
    (exists c, calls (run evs s) = (calls s ++ c)%list).
Proof.
  intros evs s.
  apply (run_keeps grows (fun _ => true)).
  - intros s0 ev _. apply step_grows.
  - clear s. induction evs as [| ev evs IH]; cbn; auto.
Qed.

(** X7.  No hook installs or drops the store handle: over any run without
    a [set_store] call, a handle is held at the end exactly when one was
    held at the start. *)
Theorem hooks_keep_store_handle :
  forall (evs : list Event) (s : State),
    existsb is_set_store evs = false ->
    is_not_None (store (run evs s)) = is_not_None (store s).
Proof.
  intros evs s Hevs.
  apply (run_keeps same_handle (fun ev => negb (is_set_store ev))).
  - intros s0 ev Hev. apply step_same_handle.
    destruct ev; try exact I. discriminate.
  - clear s. induction evs as [| ev evs IH]; cbn in *; [reflexivity |].
    apply orb_false_iff in Hevs. destruct Hevs as [Hev Hevs].
    rewrite Hev, (IH Hevs). reflexivity.
Qed.

(** ** The snapshot over a run *)

Lemma step_snapshot (s : State) (ev : Event) :
  is_not_None (snapshot (step s ev))
  = is_not_None (snapshot s) || is_before_upstream_connection ev.
Proof.
  destruct (is_before_upstream_connection ev) eqn:Hev.
  - destruct ev; try discriminate. unfold step.
    rewrite before_upstream_connection_snapshot. rewrite orb_true_r.
    reflexivity.
  - rewrite (same_snapshot_eq _ _ (step_same_snapshot s ev Hev)).
    rewrite orb_false_r. reflexivity.
Qed.

Lemma step_snapshot_together (s : State) (ev : Event) :
  is_not_None (__enabled s) = is_not_None (__local s) ->
  is_not_None (__enabled (step s ev)) = is_not_None (__local (step s ev)).
Proof.
  intros Hs. destruct (is_before_upstream_connection ev) eqn:Hev.
  - destruct ev; try discriminate. unfold step.
    pose proof (before_upstream_connection_snapshot s request) as Hb.
    apply snapshot_Some in Hb. destruct Hb as [He Hl].
    rewrite He, Hl. reflexivity.
  - destruct (step_same_snapshot s ev Hev) as [He Hl].
    rewrite He, Hl. exact Hs.
Qed.

(** X8.  On a plugin instance, after any calls since [__init__], the
    snapshot is set exactly when [before_upstream_connection] has been
    called at least once, and its two attributes are set together: one is
    [None] exactly when the other is. *)
Theorem snapshot_set_by_before_upstream_connection_only :
  forall (e l : bool) (evs : list Event),
    is_not_None (snapshot (run evs (__init__ e l)))
    = existsb is_before_upstream_connection evs /\
    (__enabled (run evs (__init__ e l)) = None <->
     __local (run evs (__init__ e l)) = None).
Proof.
  intros e l evs.
  assert (Hgen : forall s,
             is_not_None (snapshot (run evs s))
             = is_not_None (snapshot s)
               || existsb is_before_upstream_connection evs).
  { induction evs as [| ev evs IH]; intros s; cbn.
    - rewrite orb_false_r. reflexivity.
    - change (fold_left step evs ?x) with (run evs x).
      rewrite IH, step_snapshot, orb_assoc. reflexivity. }
  assert (Htog : forall s,
             is_not_None (__enabled s) = is_not_None (__local s) ->
             is_not_None (__enabled (run evs s))
             = is_not_None (__local (run evs s))).
  { clear Hgen. induction evs as [| ev evs IH]; intros s Hs; cbn.
    - exact Hs.
    - change (fold_left step evs ?x) with (run evs x).
      apply IH, step_snapshot_together, Hs. }
  split.
  - rewrite Hgen. reflexivity.
  - specialize (Htog (__init__ e l) eq_refl).
    destruct (__enabled (run evs (__init__ e l))),
             (__local (run evs (__init__ e l)));
      cbn in Htog; split; intros; congruence.
Qed.

(** ** The upstream phase *)

(** X1.  On a connection whose snapshot says enabled, with a store,
    [handle_upstream_chunk] is exactly one [cache_response_chunk] call and
    ends as that call ends: the chunk the store returns is the chunk
    relayed, and an exception of the store is raised to the caller, with
    nothing caught, logged or queued.  This holds whatever the [enabled]
    event has become since the snapshot. *)
Theorem handle_upstream_chunk_ends_as_store :
  forall (s : State) (st : S) (l : bool) (chunk : memoryview),
    snapshot s = Some (true, l) ->
    store s = Some st ->
    fst (handle_upstream_chunk chunk s) = fst (cache_response_chunk st chunk) /\
    store (snd (handle_upstream_chunk chunk s))
    = Some (snd (cache_response_chunk st chunk)) /\
    calls (snd (handle_upstream_chunk chunk s))
    = (calls s ++ [Cache_response_chunk chunk])%list /\
    client (snd (handle_upstream_chunk chunk s)) = client s /\
    log (snd (handle_upstream_chunk chunk s)) = log s.
Proof.
  intros s st l chunk Hs Hst.
  rewrite (handle_upstream_chunk_enabled s st l chunk Hs Hst). cbn. auto.
Qed.

Lemma on_upstream_connection_close_enabled (s : State) (st : S) (l : bool) :
  snapshot s = Some (true, l) ->
  store s = Some st ->
  on_upstream_connection_close s
  = (fst (close st),
     set_calls (calls s ++ [Close])
       (set_store_attr (Some (snd (close st))) s)).
Proof.
  intros Hs Hst. apply snapshot_Some in Hs. destruct Hs as [He Hl].
  unfold on_upstream_connection_close, call_store. cbn.
  rewrite He, Hl. cbn. rewrite Hst. cbn. rewrite Hst.
  destruct (close st); reflexivity.
Qed.

(** X2.  On a connection whose snapshot says enabled, with a store,
    [on_upstream_connection_close] ends as the store's [close] ends, an
    exception included, and the plugin keeps no record of having closed:
    [n] close notifications in a row are [n] calls of the store's
    [close]. *)
Theorem close_is_forwarded_every_time :
  forall (n : nat) (s : State) (st : S) (l : bool),
    snapshot s = Some (true, l) ->
    store s = Some st ->
    fst (on_upstream_connection_close s) = fst (close st) /\
    calls (run (repeat On_upstream_connection_close n) s)
    = (calls s ++ repeat Close n)%list.
Proof.
  intros n s st l Hs Hst. split.
  - rewrite (on_upstream_connection_close_enabled s st l Hs Hst). reflexivity.
  - revert s st Hs Hst. induction n as [| n IH]; intros s st Hs Hst.
    + cbn. rewrite app_nil_r. reflexivity.
    + unfold run. cbn [repeat fold_left].
      change (fold_left step ?evs ?x) with (run evs x).
      replace (step s On_upstream_connection_close)
        with (snd (on_upstream_connection_close s)) by reflexivity.
      rewrite (on_upstream_connection_close_enabled s st l Hs Hst).
      cbn [snd].
      rewrite (IH _ (snd (close st))).
      * cbn. rewrite <- app_assoc. reflexivity.
      * exact Hs.
      * reflexivity.
Qed.

(** ** Tunnels *)

(** X3.  A CONNECT request never reaches the store and queues nothing,
    in [before_upstream_connection] as in [handle_client_request], in
    whatever state the plugin is; and on an enabled connection with a
    store [handle_client_request] returns a CONNECT request as it is, the
    [local] flag of the snapshot being ignored. *)
Theorem CONNECT_never_reaches_the_store :
  forall (s : State) (request : HttpParser),
    method request = Some httpMethods.CONNECT ->
    (calls (snd (before_upstream_connection request s)) = calls s /\
     client (snd (before_upstream_connection request s)) = client s) /\
    (calls (snd (handle_client_request request s)) = calls s /\
     client (snd (handle_client_request request s)) = client s) /\
    (forall (st : S) (l : bool),
       snapshot s = Some (true, l) -> store s = Some st ->
       fst (handle_client_request request s) = Return (Some request)).
Proof.
  intros s request Hm. apply is_CONNECT_true in Hm.
  split; [| split].
  - unfold before_upstream_connection. cbn.
    destruct (enabled s); cbn; [| auto].
    destruct (store s); cbn; [| auto]. rewrite Hm. cbn. auto.
  - unfold handle_client_request. cbn.
    destruct (__enabled s) as [[|] |]; cbn; auto;
      destruct (__local s); cbn; auto.
    destruct (store s); cbn; [| auto]. rewrite Hm. cbn. auto.
  - intros st l Hs Hst. apply snapshot_Some in Hs. destruct Hs as [He Hl].
    unfold handle_client_request. cbn. rewrite He, Hl. cbn. rewrite Hst. cbn.
    rewrite Hm. reflexivity.
Qed.

(** ** Whole connections *)

(** [before_upstream_connection] on an enabled plugin with a store, for a
    request other than CONNECT. *)
Lemma before_upstream_connection_lookup
    (s : State) (st : S) (request : HttpParser) :
  enabled s = true ->
  store s = Some st ->
  method request <> Some httpMethods.CONNECT ->
  fst (before_upstream_connection request s)
  = match fst (is_cached st request) with
    | Return true => Return None
    | _ => Return (Some request)
    end /\
  snapshot (snd (before_upstream_connection request s))
  = Some (true, local s) /\
  store (snd (before_upstream_connection request s))
  = Some (snd (is_cached st request)) /\
  calls (snd (before_upstream_connection request s))
  = (calls s ++ [Is_cached request])%list /\
  client (snd (before_upstream_connection request s)) = client s.
Proof.
  intros He Hst Hm. apply is_CONNECT_false in Hm.
  unfold before_upstream_connection, call_store, snapshot. cbn.
  rewrite He, Hst. cbn. rewrite Hm. cbn. rewrite Hst.
  destruct (is_cached st request) as [[[|] | e] st0]; cbn; auto.
Qed.

(** [handle_client_request] when the store answers with a request-kind
    message and the snapshot says not local. *)
Lemma handle_client_request_recording
    (s : State) (st : S) (request msg : HttpParser) :
  snapshot s = Some (true, false) ->
  store s = Some st ->
  method request <> Some httpMethods.CONNECT ->
  fst (cache_request st request) = Return msg ->
  type msg = httpParserTypes.REQUEST_PARSER ->
  fst (handle_client_request request s) = Return (Some msg) /\
  snapshot (snd (handle_client_request request s)) = Some (true, false) /\
  store (snd (handle_client_request request s))
  = Some (snd (cache_request st request)) /\
  calls (snd (handle_client_request request s))
  = (calls s ++ [Cache_request request])%list /\
  client (snd (handle_client_request request s)) = client s.
Proof.
  intros Hs Hst Hm Hc Ht.
  assert (Hsnap : snapshot (snd (handle_client_request request s))
                  = Some (true, false)).
  { rewrite (same_snapshot_eq _ _
               (handle_client_request_same_snapshot request s)).
    exact Hs. }
  apply snapshot_Some in Hs. destruct Hs as [He Hl].
  split; [| split; [exact Hsnap |]]; clear Hsnap;
    enter_handle_client_request He Hl Hst Hm;
    destruct (cache_request st request) as [r0 st1]; cbn in Hc; subst r0;
    cbn; rewrite Ht; cbn; auto.
Qed.

(** [handle_client_request] when the store answers with a response-kind
    message whose code converts. *)
Lemma handle_client_request_replaying
    (s : State) (st : S) (l : bool) (request msg : HttpParser) (n : Z) :
  snapshot s = Some (true, l) ->
  store s = Some st ->
  method request <> Some httpMethods.CONNECT ->
  fst (cache_request st request) = Return msg ->
  type msg = httpParserTypes.RESPONSE_PARSER ->
  match code msg with Some c => int c = Some n | None => n = 0 end ->
  fst (handle_client_request request s) = Return None /\
  calls (snd (handle_client_request request s))
  = (calls s ++ [Cache_request request])%list /\
  client (snd (handle_client_request request s))
  = (client s ++ [cached_response n msg])%list.
Proof.
  intros Hs Hst Hm Hc Ht Hn.
  apply snapshot_Some in Hs. destruct Hs as [He Hl].
  enter_handle_client_request He Hl Hst Hm.
  destruct (cache_request st request) as [r0 st1]. cbn in Hc. subst r0.
  cbn. rewrite Ht. cbn.
  destruct (code msg) as [c |]; [rewrite Hn | subst n]; cbn; auto.
Qed.

(** The chunks of a response, one [handle_upstream_chunk] call each. *)
Lemma run_chunks (chunks : list memoryview) :
  forall (s : State) (st : S) (l : bool),
    snapshot s = Some (true, l) ->
    store s = Some st ->
    snapshot (run (map Handle_upstream_chunk chunks) s) = Some (true, l) /\
    (exists st', store (run (map Handle_upstream_chunk chunks) s) = Some st') /\
    calls (run (map Handle_upstream_chunk chunks) s)
    = (calls s ++ map Cache_response_chunk chunks)%list /\
    client (run (map Handle_upstream_chunk chunks) s) = client s.
Proof.
  induction chunks as [| chunk chunks IH]; intros s st l Hs Hst.
  - cbn. rewrite app_nil_r. eauto.
  - unfold run. cbn [map fold_left].
    change (fold_left step ?evs ?x) with (run evs x).
    replace (step s (Handle_upstream_chunk chunk))
      with (snd (handle_upstream_chunk chunk s)) by reflexivity.
    rewrite (handle_upstream_chunk_enabled s st l chunk Hs Hst).
    cbn [snd].
    destruct (IH (set_calls (calls s ++ [Cache_response_chunk chunk])
                    (set_store_attr
                       (Some (snd (cache_response_chunk st chunk))) s))
                 (snd (cache_response_chunk st chunk)) l Hs eq_refl)
      as [Hs' [Hst' [Hc' Hq']]].
    split; [exact Hs' |]. split; [exact Hst' |]. split.
    + rewrite Hc'. cbn. rewrite <- app_assoc. reflexivity.
    + rewrite Hq'. reflexivity.
Qed.

(** X4.  A connection that records: both events in their default state
    of enabled and not local, a store that does not report the request as
    cached (it answers false, or raises) and then answers [cache_request]
    with a request-kind message.  Over [before_upstream_connection],
    [handle_client_request], one [handle_upstream_chunk] per chunk and
    [on_upstream_connection_close], the store sees [is_cached],
    [cache_request], the chunks in their order and [close], each once, and
    nothing is queued for the client by the plugin. *)
Theorem recording_connection :
  forall (s : State) (st : S) (request msg : HttpParser)
         (chunks : list memoryview),
    enabled s = true ->
    local s = false ->
    store s = Some st ->
    method request <> Some httpMethods.CONNECT ->
    fst (is_cached st request) <> Return true ->
    fst (cache_request (snd (is_cached st request)) request) = Return msg ->
    type msg = httpParserTypes.REQUEST_PARSER ->
    let evs := (Before_upstream_connection request
                :: Handle_client_request request
                :: map Handle_upstream_chunk chunks
                ++ [On_upstream_connection_close])%list in
    fst (before_upstream_connection request s) = Return (Some request) /\
    calls (run evs s)
    = (calls s ++ Is_cached request :: Cache_request request
         :: map Cache_response_chunk chunks ++ [Close])%list /\
    client (run evs s) = client s.
Proof.
  intros s st request msg chunks He Hl Hst Hm Hmiss Hc Ht evs. subst evs.
  destruct (before_upstream_connection_lookup s st request He Hst Hm)
    as [Hr0 [Hs0 [Hst0 [Hc0 Hq0]]]].
  rewrite Hl in Hs0.
  split.
  { rewrite Hr0. destruct (fst (is_cached st request)) as [[|] | e];
      [congruence | reflexivity | reflexivity]. }
  unfold run. cbn [fold_left]. rewrite fold_left_app. cbn [fold_left].
  change (fold_left step ?evs ?x) with (run evs x).
  replace (step s (Before_upstream_connection request))
    with (snd (before_upstream_connection request s)) by reflexivity.
  set (s0 := snd (before_upstream_connection request s)) in *.
  clearbody s0.
  replace (step s0 (Handle_client_request request))
    with (snd (handle_client_request request s0)) by reflexivity.
  destruct (handle_client_request_recording s0 _ request msg
              Hs0 Hst0 Hm Hc Ht) as [_ [Hs1 [Hst1 [Hc1 Hq1]]]].
  set (s1 := snd (handle_client_request request s0)) in *.
  clearbody s1.
  destruct (run_chunks chunks s1 _ false Hs1 Hst1)
    as [Hs2 [[st2 Hst2] [Hc2 Hq2]]].
  set (s2 := run (map Handle_upstream_chunk chunks) s1) in *.
  clearbody s2.
  replace (step s2 On_upstream_connection_close)
    with (snd (on_upstream_connection_close s2)) by reflexivity.
  rewrite (on_upstream_connection_close_enabled s2 st2 false Hs2 Hst2).
  cbn [snd]. cbn. rewrite Hc2, Hc1, Hc0, Hq2, Hq1, Hq0.
  split; [| reflexivity].
  rewrite <- !app_assoc. reflexivity.
Qed.

(** X13.  A connection served from the cache: the [enabled] event set,
    a store that reports the request as cached and then answers
    [cache_request] with a response-kind message whose code is absent or a
    number.  [before_upstream_connection] returns [None], then
    [handle_client_request] returns [None] and has queued exactly the
    replay; the store saw [is_cached] and [cache_request], once each, and
    nothing else. *)
Theorem cached_connection :
  forall (s : State) (st : S) (request msg : HttpParser) (n : Z),
    enabled s = true ->
    store s = Some st ->
    method request <> Some httpMethods.CONNECT ->
    fst (is_cached st request) = Return true ->
    fst (cache_request (snd (is_cached st request)) request) = Return msg ->
    type msg = httpParserTypes.RESPONSE_PARSER ->
    match code msg with Some c => int c = Some n | None => n = 0 end ->
    let s0 := snd (before_upstream_connection request s) in
    let s1 := snd (handle_client_request request s0) in
    fst (before_upstream_connection request s) = Return None /\
    fst (handle_client_request request s0) = Return None /\
    client s1
    = (client s ++
       [build_http_response n (reason msg)
          (dict_comprehension (values (headers msg))) (body msg)])%list /\
    calls s1 = (calls s ++ [Is_cached request; Cache_request request])%list.
Proof.
  intros s st request msg n He Hst Hm Hhit Hc Ht Hn s0 s1.
  destruct (before_upstream_connection_lookup s st request He Hst Hm)
    as [Hr0 [Hs0 [Hst0 [Hc0 Hq0]]]].
  rewrite Hhit in Hr0.
  destruct (handle_client_request_replaying s0 _ (local s) request msg n
              Hs0 Hst0 Hm Hc Ht Hn) as [Hr1 [Hc1 Hq1]].
  subst s1 s0.
  split; [exact Hr0 |]. split; [exact Hr1 |]. split.
  - rewrite Hq1, Hq0. reflexivity.
  - rewrite Hc1, Hc0, <- app_assoc. reflexivity.
Qed.

(** ** The request phase never raises on a plugin with a store *)

Lemma before_upstream_connection_returns (s : State) (request : HttpParser) :
  enabled s = false \/ store s <> None ->
  exists v, fst (before_upstream_connection request s) = Return v.
Proof.
  intros Hok. unfold before_upstream_connection, call_store. cbn.
  destruct (enabled s); cbn; [| eauto].
  destruct (store s) as [st |] eqn:Hst; cbn.
  2:{ destruct Hok as [Hoff | Hnone]; [discriminate | congruence]. }
  destruct (is_CONNECT request); cbn; [eauto |]. rewrite Hst.
  destruct (is_cached st request) as [[[|] | e] st0]; cbn; eauto.
Qed.

Lemma handle_client_request_returns (s : State) (request : HttpParser) :
  snapshot s <> None ->
  store s <> None ->
  exists v, fst (handle_client_request request s) = Return v.
Proof.
  intros Hs Hst.
  destruct (snapshot s) as [[en l] |] eqn:Hsnap; [clear Hs | congruence].
  apply snapshot_Some in Hsnap. destruct Hsnap as [He Hl].
  destruct (store s) as [st |] eqn:Hst'; [clear Hst | congruence].
  unfold handle_client_request, call_store, code_or_0. cbn.
  rewrite He, Hl. cbn. destruct en; cbn; [| eauto]. rewrite Hst'. cbn.
  destruct (is_CONNECT request); cbn; [eauto |]. rewrite Hst'.
  destruct (cache_request st request) as [[msg | e] st1]; cbn.
  - destruct (type msg =? httpParserTypes.REQUEST_PARSER)%Z; cbn.
    { destruct l; cbn; eauto. }
    destruct (type msg =? httpParserTypes.RESPONSE_PARSER)%Z; cbn.
    { destruct (code msg) as [c |]; cbn; [| eauto].
      destruct (int c); cbn; [eauto |].
      destruct (is_cached st1 request) as [[[|] | e'] st2]; cbn; eauto. }
    destruct (is_cached st1 request) as [[[|] | e'] st2]; cbn; eauto.
  - destruct (is_cached st1 request) as [[[|] | e'] st2]; cbn; eauto.
Qed.

Lemma run_store_held (evs : list Event) :
  forall s : State,
    is_not_None (store s) = true -> is_not_None (store (run evs s)) = true.
Proof.
  induction evs as [| ev evs IH]; intros s Hs; cbn; [exact Hs |].
  change (fold_left step evs ?x) with (run evs x). apply IH.
  destruct ev; try (rewrite step_same_handle; [exact Hs | exact I]).
  reflexivity.
Qed.

Lemma run_snapshot_set (evs : list Event) :
  forall s : State,
    is_not_None (snapshot (run evs s))
    = is_not_None (snapshot s) || existsb is_before_upstream_connection evs.
Proof.
  induction evs as [| ev evs IH]; intros s; cbn.
  - rewrite orb_false_r. reflexivity.
  - change (fold_left step evs ?x) with (run evs x).
    rewrite IH, step_snapshot, orb_assoc. reflexivity.
Qed.

(** X9.  A [CacheResponsesPlugin] holds a store from its [__init__] on,
    whatever is called on it.  So on such a plugin
    [before_upstream_connection] always returns, and, once
    [before_upstream_connection] has been called, [handle_client_request]
    always returns: with the disk store in place the request phase raises
    nothing, whatever the store does. *)
Theorem CacheResponsesPlugin_request_phase_returns :
  forall (disk_store : S) (e l : bool) (evs : list Event)
         (request : HttpParser),
    let s := run evs (CacheResponsesPlugin__init__ disk_store e l) in
    store s <> None /\
    (exists v, fst (before_upstream_connection request s) = Return v) /\
    (existsb is_before_upstream_connection evs = true ->
     exists v, fst (handle_client_request request s) = Return v).
Proof.
  intros disk_store e l evs request s.
  assert (Hheld : store s <> None).
  { pose proof (run_store_held evs
                  (CacheResponsesPlugin__init__ disk_store e l) eq_refl)
      as Hh.
    fold s in Hh. destruct (store s); [discriminate | discriminate Hh]. }
  split; [exact Hheld |]. split.
  - apply before_upstream_connection_returns. right. exact Hheld.
  - intros Hb. apply handle_client_request_returns; [| exact Hheld].
    pose proof (run_snapshot_set evs
                  (CacheResponsesPlugin__init__ disk_store e l)) as Hsnap.
    fold s in Hsnap. rewrite Hb, orb_true_r in Hsnap.
    destruct (snapshot s); [discriminate | discriminate Hsnap].
Qed.

(** ** One call of [handle_client_request] *)

Ltac forwarded :=
  right; left; eexists; split; [reflexivity |]; auto.

(** X10.  One call of [handle_client_request] queues at most one packet,
    and the packet goes with the result.  When the hook returns [None] the
    store has answered [cache_request] with a message and the hook has
    queued exactly one packet: the 502 when the message is of request kind
    (and the snapshot says local), the replay of that very message, under
    the number its code converts to (0 without a code), when it is of
    response kind.  When the hook returns a message to forward it has
    queued nothing, or it returns the request it was given and has queued
    the 500 alone.  When it raises (its own assertion) it has changed
    nothing. *)
Theorem handle_client_request_serves_or_forwards :
  forall (s : State) (request : HttpParser),
    (fst (handle_client_request request s) = Return None /\
     exists (st : S) (msg : HttpParser),
       store s = Some st /\
       fst (cache_request st request) = Return msg /\
       ((type msg = httpParserTypes.REQUEST_PARSER /\
         __local s = Some true /\
         client (snd (handle_client_request request s))
         = (client s ++ [BAD_GATEWAY_response PROXY_AGENT_HEADER_VALUE])%list) \/
        (type msg = httpParserTypes.RESPONSE_PARSER /\
         exists n : Z,
           match code msg with
           | Some c => int c = Some n
           | None => n = 0
           end /\
           client (snd (handle_client_request request s))
           = (client s ++
              [build_http_response n (reason msg)
                 (dict_comprehension (values (headers msg))) (body msg)])%list))) \/
    (exists v,
       fst (handle_client_request request s) = Return (Some v) /\
       (client (snd (handle_client_request request s)) = client s \/
        (v = request /\
         client (snd (handle_client_request request s))
         = (client s ++
            [INTERNAL_SERVER_ERROR_response PROXY_AGENT_HEADER_VALUE])%list))) \/
    (handle_client_request request s = (Raise AssertionError, s)).
Proof.
  intros s request.
  unfold handle_client_request, call_store, code_or_0. cbn.
  destruct (__enabled s) as [[|] |]; cbn; auto;
    destruct (__local s) as [l |]; cbn; auto; try forwarded.
  destruct (store s) as [st |] eqn:Hst; cbn; auto.
  destruct (is_CONNECT request); cbn; [forwarded |]. rewrite Hst.
  destruct (cache_request st request) as [[msg | e] st1] eqn:Hc; cbn.
  - destruct (Z.eqb_spec (type msg) httpParserTypes.REQUEST_PARSER)
      as [Hreq | Hreq]; cbn.
    { destruct l; cbn; [| forwarded].
      left. split; [reflexivity |]. exists st, msg. rewrite Hc.
      split; [reflexivity |]. split; [reflexivity |]. left.
      split; [exact Hreq |]. split; reflexivity. }
    destruct (Z.eqb_spec (type msg) httpParserTypes.RESPONSE_PARSER)
      as [Hrsp | Hrsp]; cbn.
    { destruct (code msg) as [c |] eqn:Hcode; cbn.
      - destruct (int c) as [n |] eqn:Hint; cbn.
        + left. split; [reflexivity |]. exists st, msg. rewrite Hc.
          split; [reflexivity |]. split; [reflexivity |]. right.
          split; [exact Hrsp |]. exists n.
          split; [rewrite Hcode; exact Hint | reflexivity].
        + destruct (is_cached st1 request) as [[[|] | e'] st2]; cbn;
            forwarded.
      - left. split; [reflexivity |]. exists st, msg. rewrite Hc.
        split; [reflexivity |]. split; [reflexivity |]. right.
        split; [exact Hrsp |]. exists 0.
        split; [rewrite Hcode; reflexivity | reflexivity]. }
    destruct (is_cached st1 request) as [[[|] | e'] st2]; cbn; forwarded.
  - destruct (is_cached st1 request) as [[[|] | e'] st2]; cbn; forwarded.
Qed.

(** X11.  What the request phase asks of the store.
    [before_upstream_connection] makes no store call or the one
    [is_cached] call.  [handle_client_request] makes no store call, or
    [cache_request] alone, or [cache_request] followed by [is_cached]; in
    the last case it returns the request it was given.  Neither ever
    calls [cache_response_chunk] or [close]. *)
Theorem request_phase_store_calls :
  forall (s : State) (request : HttpParser),
    (calls (snd (before_upstream_connection request s)) = calls s \/
     calls (snd (before_upstream_connection request s))
     = (calls s ++ [Is_cached request])%list) /\
    (calls (snd (handle_client_request request s)) = calls s \/
     calls (snd (handle_client_request request s))
     = (calls s ++ [Cache_request request])%list \/
     (calls (snd (handle_client_request request s))
      = (calls s ++ [Cache_request request; Is_cached request])%list /\
      fst (handle_client_request request s) = Return (Some request))).
Proof.
  intros s request. split.
  - unfold before_upstream_connection, call_store. cbn.
    destruct (enabled s); cbn; auto.
    destruct (store s) as [st |] eqn:Hst; cbn; auto.
    destruct (is_CONNECT request); cbn; auto. rewrite Hst.
    destruct (is_cached st request) as [[[|] | e] st0]; cbn; auto.
  - unfold handle_client_request, call_store, code_or_0. cbn.
    destruct (__enabled s) as [[|] |]; cbn; auto;
      destruct (__local s) as [l |]; cbn; auto.
    destruct (store s) as [st |] eqn:Hst; cbn; auto.
    destruct (is_CONNECT request); cbn; auto. rewrite Hst.
    destruct (cache_request st request) as [[msg | e] st1]; cbn.
    + destruct (type msg =? httpParserTypes.REQUEST_PARSER)%Z; cbn.
      { destruct l; cbn; auto. }
      destruct (type msg =? httpParserTypes.RESPONSE_PARSER)%Z; cbn.
      { destruct (code msg) as [c |]; cbn; [destruct (int c); cbn |]; auto.
        destruct (is_cached st1 request) as [[[|] | e'] st2]; cbn;
          rewrite <- app_assoc; auto. }
      destruct (is_cached st1 request) as [[[|] | e'] st2]; cbn;
        rewrite <- app_assoc; auto.
    + destruct (is_cached st1 request) as [[[|] | e'] st2]; cbn;
        rewrite <- app_assoc; auto.
Qed.

(** ** A connection that started disabled *)

#[local] Instance quiet_preorder : PreOrder (@quiet S).
Proof.
  split.
  - intro s. repeat split; reflexivity.
  - intros s1 s2 s3 [Hq1 [Hl1 Hc1]] [Hq2 [Hl2 Hc2]].
    repeat split; congruence.
Qed.

Lemma step_disabled_quiet (s : State) (l : bool) (ev : Event) :
  snapshot s = Some (false, l) ->
  is_before_upstream_connection ev = false ->
  quiet s (step s ev).
Proof.
  intros Hs Hev. apply snapshot_Some in Hs. destruct Hs as [He Hl].
  destruct ev; try discriminate; unfold step.
  - unfold handle_client_request. cbn. rewrite He, Hl. cbn. reflexivity.
  - unfold handle_upstream_chunk. cbn. rewrite He, Hl. cbn. reflexivity.
  - unfold on_upstream_connection_close. cbn. rewrite He, Hl. cbn.
    reflexivity.
  - repeat split; reflexivity.
  - repeat split; reflexivity.
Qed.

Lemma run_disabled_quiet (evs : list Event) :
  forall (s : State) (l : bool),
    snapshot s = Some (false, l) ->
    existsb is_before_upstream_connection evs = false ->
    quiet s (run evs s).
Proof.
  induction evs as [| ev evs IH]; intros s l Hs Hevs; cbn in *.
  - reflexivity.
  - apply orb_false_iff in Hevs. destruct Hevs as [Hev Hevs].
    change (fold_left step evs ?x) with (run evs x).
    transitivity (step s ev).
    + apply (step_disabled_quiet s l ev Hs Hev).
    + apply (IH _ l); [| exact Hevs].
      rewrite (same_snapshot_eq _ _ (step_same_snapshot s ev Hev)).
      exact Hs.
Qed.

(** X12.  A connection whose [before_upstream_connection] ran with the
    [enabled] event clear stays inert until [before_upstream_connection]
    is called again: whatever hooks follow, and even if the event is set
    again in the meantime, nothing is asked of the store, nothing is
    queued for the client and nothing is logged. *)
Theorem disabled_connection_stays_inert :
  forall (s : State) (request : HttpParser) (evs : list Event),
    enabled s = false ->
    existsb is_before_upstream_connection evs = false ->
    calls (run (Before_upstream_connection request :: evs) s) = calls s /\
    client (run (Before_upstream_connection request :: evs) s) = client s /\
    log (run (Before_upstream_connection request :: evs) s) = log s.
Proof.
  intros s request evs He Hevs. unfold run. cbn [fold_left].
  change (fold_left step ?l ?x) with (run l x).
  assert (Hb : step s (Before_upstream_connection request)
               = set___local (Some (local s)) (set___enabled (Some false) s)).
  { unfold step, before_upstream_connection. cbn. rewrite He. reflexivity. }
  rewrite Hb.
  destruct (run_disabled_quiet evs
              (set___local (Some (local s)) (set___enabled (Some false) s))
              (local s) eq_refl Hevs) as [Hq [Hl Hc]].
  rewrite Hq, Hl, Hc. cbn. auto.
Qed.

(** ** The headers of a replay *)

Lemma dict_setitem_fresh (d : dict) (k v : bytes) :
  ~ In k (map fst d) -> dict_setitem d k v = (d ++ [(k, v)])%list.
Proof.
  induction d as [| [k' v'] d IH]; cbn; intros Hk; [reflexivity |].
  destruct (String.eqb_spec k' k) as [-> | Hne].
  - exfalso. apply Hk. left. reflexivity.
  - rewrite IH; [reflexivity |]. intros Hin. apply Hk. right. exact Hin.
Qed.

Lemma fold_dict_setitem_fresh (vals : list (bytes * bytes)) :
  forall d : dict,
    NoDup (map fst (d ++ vals)) ->
    fold_left (fun d kv => dict_setitem d (fst kv) (snd kv)) vals d
    = (d ++ vals)%list.
Proof.
  induction vals as [| [k v] vals IH]; intros d Hnd; cbn.
  - rewrite app_nil_r. reflexivity.
  - rewrite dict_setitem_fresh.
    + rewrite IH; rewrite <- app_assoc; [reflexivity | exact Hnd].
    + rewrite map_app in Hnd. cbn in Hnd.
      apply NoDup_remove_2 in Hnd. intros Hin. apply Hnd.
      apply in_or_app. left. exact Hin.
Qed.

(** X14.  When the names of the cached headers are pairwise distinct, the
    headers of the replay are the cached (name, value) pairs themselves,
    all of them and in their order: the replay loses no header and adds
    none. *)
Theorem replay_keeps_distinct_headers :
  forall (n : Z) (msg : HttpParser),
    NoDup (map fst (values (headers msg))) ->
    rsp_headers (cached_response n msg) = values (headers msg).
Proof.
  intros n msg Hnd. cbn. unfold dict_comprehension.
  apply (fold_dict_setitem_fresh (values (headers msg)) []). exact Hnd.
Qed.

(** X15.  Looking a name up in the headers of the replay gives the value
    of the last cached header of that name, and nothing for a name that is
    not cached: of several cached headers with one name only the last
    value is replayed. *)
Theorem replay_header_is_last_cached :
  forall (n : Z) (msg : HttpParser) (name : bytes),
    dict_get (rsp_headers (cached_response n msg)) name
    = dict_get (rev (values (headers msg))) name.
Proof.
  intros n msg name. cbn. unfold dict_comprehension.
  rewrite dict_get_comprehension. cbn.
  destruct (dict_get (rev (values (headers msg))) name); reflexivity.
Qed.

(** ** The test utilities *)

Lemma startswith_not_eq (test_name p other : string) :
  startswith test_name p = true ->
  startswith other p = false ->
  String.eqb test_name other = false.
Proof.
  intros Hs Ho. destruct (String.eqb_spec test_name other) as [-> | Hne];
    [congruence | reflexivity].
Qed.

(** X16.  [get_plugin_by_test_name] gives [CacheResponsesPlugin] for
    exactly the test names that start with [test_cache_responses_plugin]:
    every such name gets it, whatever follows the prefix, and no other
    name does. *)
Theorem get_plugin_by_test_name_cache :
  forall test_name : string,
    get_plugin_by_test_name test_name = CacheResponsesPlugin
    <-> startswith test_name "test_cache_responses_plugin" = true.
Proof.
  intros test_name. unfold get_plugin_by_test_name. split.
  - destruct (String.eqb test_name "test_modify_post_data_plugin");
      [discriminate |].
    destruct (String.eqb test_name "test_proposed_rest_api_plugin");
      [discriminate |].
    destruct (String.eqb test_name "test_redirect_to_custom_server_plugin");
      [discriminate |].
    destruct (String.eqb test_name "test_filter_by_upstream_host_plugin");
      [discriminate |].
    destruct (startswith test_name "test_cache_responses_plugin");
      [intros _; reflexivity |].
    destruct (String.eqb test_name "test_man_in_the_middle_plugin");
      [discriminate |].
    destruct (String.eqb test_name "test_filter_by_url_regex_plugin");
      discriminate.
  - intros Hs.
    rewrite (startswith_not_eq test_name "test_cache_responses_plugin"
               "test_modify_post_data_plugin" Hs eq_refl).
    rewrite (startswith_not_eq test_name "test_cache_responses_plugin"
               "test_proposed_rest_api_plugin" Hs eq_refl).
    rewrite (startswith_not_eq test_name "test_cache_responses_plugin"
               "test_redirect_to_custom_server_plugin" Hs eq_refl).
    rewrite (startswith_not_eq test_name "test_cache_responses_plugin"
               "test_filter_by_upstream_host_plugin" Hs eq_refl).
    rewrite Hs. reflexivity.
Qed.

(** ** Local mode *)

(** X17.  On a connection whose snapshot says enabled and local, with a
    store, [handle_client_request] lets a request other than CONNECT
    through to upstream only on its fail-open path: if it returns a
    message to forward, that message is the request it was given, the
    store was asked [cache_request] and then [is_cached], and the fault
    that led there was logged. *)
Theorem local_mode_forwards_only_on_fault :
  forall (s : State) (st : S) (request v : HttpParser),
    snapshot s = Some (true, true) ->
    store s = Some st ->
    method request <> Some httpMethods.CONNECT ->
    fst (handle_client_request request s) = Return (Some v) ->
    v = request /\
    calls (snd (handle_client_request request s))
    = (calls s ++ [Cache_request request; Is_cached request])%list /\
    exists e rest,
      log (snd (handle_client_request request s))
      = (log s ++ Client_request (host request) (port_or_0 request)
                    (path request)
           :: Caching_disabled e :: rest)%list.
Proof.
  intros s st request v Hs Hst Hm.
  apply snapshot_Some in Hs. destruct Hs as [He Hl].
  enter_handle_client_request He Hl Hst Hm.
  destruct (cache_request st request) as [[msg | e] st1]; cbn.
  - destruct (type msg =? httpParserTypes.REQUEST_PARSER)%Z; cbn;
      [discriminate |].
    destruct (type msg =? httpParserTypes.RESPONSE_PARSER)%Z; cbn.
    { destruct (code msg) as [c |]; cbn; [| discriminate].
      destruct (int c); cbn; [discriminate |].
      destruct (is_cached st1 request) as [[[|] | e'] st2]; cbn;
        intros [= <-]; rewrite <- !app_assoc; cbn; eauto. }
    destruct (is_cached st1 request) as [[[|] | e'] st2]; cbn;
      intros [= <-]; rewrite <- !app_assoc; cbn; eauto.
  - destruct (is_cached st1 request) as [[[|] | e'] st2]; cbn;
      intros [= <-]; rewrite <- !app_assoc; cbn; eauto.
Qed.

End Properties.

(** * The properties on concrete connections *)

(** The end-to-end cases of the test suite, on the scripted stores. *)

Example not_cached_without_upstream :
  handle_client_request agent GET_get
    (plugin (true, true) (Some miss) (Some (true, true)))
  = (Return None,
     mkState true true (Some miss) (Some true) (Some true)
       [BAD_GATEWAY_response agent]
       [Client_request (Some "example.test") 0 (Some "/get")]
       [Cache_request GET_get]).
Proof. reflexivity. Qed.

Example load_from_cache :
  handle_client_request agent GET_get
    (plugin (true, false) (Some cached) (Some (true, false)))
  = (Return None,
     mkState true false (Some cached) (Some false) (Some true)
       [build_http_response 200 (Some "OK") [("Content-Length", "19")]
          (Some "Response From Cache")]
       [Client_request (Some "example.test") 0 (Some "/get")]
       [Cache_request GET_get]).
Proof. reflexivity. Qed.

Example connect_without_upstream :
  fst (before_upstream_connection CONNECT_tunnel
         (plugin (true, true) (Some cached) None))
  = Return None.
Proof. reflexivity. Qed.

Lemma handle_client_request_fails_open_witness :
  fst (handle_client_request agent GET_get
         (plugin (true, false) (Some faulty) (Some (true, false))))
  = Return (Some GET_get) /\
  client (snd (handle_client_request agent GET_get
                 (plugin (true, false) (Some faulty) (Some (true, false)))))
  = [INTERNAL_SERVER_ERROR_response agent].
Proof.
  pose (s := plugin (true, false) (Some faulty) (Some (true, false))).
  assert (Hs : snapshot s = Some (true, false)) by reflexivity.
  assert (Hst : store s = Some faulty) by reflexivity.
  assert (Hm : method GET_get <> Some httpMethods.CONNECT) by discriminate.
  assert (Hf : fst (cache_request faulty GET_get)
               = Raise (OSError "No space left on device")) by reflexivity.
  destruct (handle_client_request_fails_open agent s GET_get) as [_ Hopen].
  destruct (Hopen faulty false (OSError "No space left on device")
              Hs Hst Hm (or_introl Hf)) as [Hr [_ [_ [Hq _]]]].
  split; [exact Hr | exact Hq].
Defined.

Lemma disabled_hooks_pass_through_witness :
  before_upstream_connection GET_get (plugin (false, false) (Some miss) None)
  = (Return (Some GET_get),
     plugin (false, false) (Some miss) (Some (false, false))) /\
  handle_client_request agent GET_get
    (plugin (true, false) (Some miss) (Some (false, false)))
  = (Return (Some GET_get),
     plugin (true, false) (Some miss) (Some (false, false))).
Proof.
  split.
  - apply (proj1 (disabled_hooks_pass_through agent
                    (plugin (false, false) (Some miss) None) GET_get "")).
    reflexivity.
  - apply (proj2 (disabled_hooks_pass_through agent
                    (plugin (true, false) (Some miss) (Some (false, false)))
                    GET_get "") false).
    reflexivity.
Defined.

Lemma before_upstream_connection_enabled_witness :
  fst (before_upstream_connection GET_get
         (plugin (true, false) (Some cached) None))
  = Return None.
Proof.
  pose (s := plugin (true, false) (Some cached) None).
  assert (He : enabled s = true) by reflexivity.
  assert (Hst : store s = Some cached) by reflexivity.
  destruct (before_upstream_connection_enabled s cached GET_get He Hst)
    as [_ [_ [Hhit _]]].
  apply Hhit; [discriminate | reflexivity].
Defined.

(** C3 as the spec words it fails: with the [enabled] event set but no
    store handle, a CONNECT request is not returned; the hook takes the
    snapshot and then fails its assertion, before it looks at the
    request. *)
Lemma CONNECT_without_store_counterexample :
  method CONNECT_tunnel = Some httpMethods.CONNECT /\
  snapshot (snd (before_upstream_connection CONNECT_tunnel
                   (@__init__ ScriptedStore true false)))
  = Some (true, false) /\
  fst (before_upstream_connection CONNECT_tunnel
         (@__init__ ScriptedStore true false))
  = Raise AssertionError /\
  fst (before_upstream_connection CONNECT_tunnel
         (@__init__ ScriptedStore true false))
  <> Return (Some CONNECT_tunnel).
Proof.
  split; [reflexivity | split; [reflexivity | split]];
    [reflexivity | discriminate].
Qed.

(** C4 as the spec words it fails: the body the code sends is spelled
    [Ressource], not [Resource]. *)
Lemma bad_gateway_body_counterexample :
  ~ (fst (handle_client_request agent GET_get
            (plugin (true, true) (Some miss) (Some (true, true))))
     = Return None /\
     client (snd (handle_client_request agent GET_get
                    (plugin (true, true) (Some miss) (Some (true, true)))))
     = [build_http_response 502 (Some "Bad gateway")
          [("Server", agent); ("Connection", "close")]
          (Some "Resource has not been cached yet. Please allow upstream.")]).
Proof. intros [_ Hq]. discriminate Hq. Qed.

Lemma local_miss_bad_gateway_witness :
  fst (handle_client_request agent GET_get
         (plugin (true, true) (Some miss) (Some (true, true))))
  = Return None /\
  client (snd (handle_client_request agent GET_get
                 (plugin (true, true) (Some miss) (Some (true, true)))))
  = [build_http_response 502 (Some "Bad gateway")
       [("Server", agent); ("Connection", "close")]
       (Some "Ressource has not been cached yet. Please allow upstream.")].
Proof.
  pose (s := plugin (true, true) (Some miss) (Some (true, true))).
  assert (Hs : snapshot s = Some (true, true)) by reflexivity.
  assert (Hst : store s = Some miss) by reflexivity.
  assert (Hm : method GET_get <> Some httpMethods.CONNECT) by discriminate.
  assert (Hc : fst (cache_request miss GET_get) = Return GET_get)
    by reflexivity.
  assert (Ht : type GET_get = httpParserTypes.REQUEST_PARSER) by reflexivity.
  destruct (local_miss_bad_gateway agent s miss GET_get GET_get
              Hs Hst Hm Hc Ht) as [Hr [Hq _]].
  split; [exact Hr | exact Hq].
Defined.

(** C5 as the spec words it fails: a response-kind message whose code is
    not a number is not replayed; the conversion raises, and the hook takes
    the fallback: it queues the 500 and returns the request. *)
Lemma damaged_entry_counterexample :
  type cached_abc = httpParserTypes.RESPONSE_PARSER /\
  fst (cache_request damaged GET_get) = Return cached_abc /\
  handle_client_request agent GET_get
    (plugin (true, false) (Some damaged) (Some (true, false)))
  = (Return (Some GET_get),
     mkState true false (Some damaged) (Some false) (Some true)
       [INTERNAL_SERVER_ERROR_response agent]
       [Client_request (Some "example.test") 0 (Some "/get");
        Caching_disabled (ValueError "invalid literal for int() with base 10")]
       [Cache_request GET_get; Is_cached GET_get]) /\
  fst (handle_client_request agent GET_get
         (plugin (true, false) (Some damaged) (Some (true, false))))
  <> Return None.
Proof.
  split; [reflexivity | split; [reflexivity | split]];
    [reflexivity | discriminate].
Qed.

Lemma cached_response_replayed_witness :
  fst (handle_client_request agent GET_get
         (plugin (true, false) (Some cached) (Some (true, false))))
  = Return None /\
  client (snd (handle_client_request agent GET_get
                 (plugin (true, false) (Some cached) (Some (true, false)))))
  = [build_http_response 200 (Some "OK") [("Content-Length", "19")]
       (Some "Response From Cache")].
Proof.
  pose (s := plugin (true, false) (Some cached) (Some (true, false))).
  assert (Hs : snapshot s = Some (true, false)) by reflexivity.
  assert (Hst : store s = Some cached) by reflexivity.
  assert (Hm : method GET_get <> Some httpMethods.CONNECT) by discriminate.
  assert (Hc : fst (cache_request cached GET_get) = Return cached_200)
    by reflexivity.
  assert (Ht : type cached_200 = httpParserTypes.RESPONSE_PARSER)
    by reflexivity.
  assert (Hn : match code cached_200 with
               | Some c => int c = Some 200
               | None => 200 = 0
               end) by reflexivity.
  destruct (cached_response_replayed agent s cached false GET_get cached_200
              200 Hs Hst Hm Hc Ht Hn) as [Hr [Hq _]].
  split; [exact Hr | exact Hq].
Defined.

(** C6 as the spec words it fails: the replay of a cached response that has
    no [Server] header has none either. *)
Lemma replay_without_server_header_counterexample :
  ~ Forall (fun p => exists v, dict_get (rsp_headers p) "Server" = Some v)
      (client (snd (handle_client_request agent GET_get
                      (plugin (true, false) (Some cached)
                         (Some (true, false)))))).
Proof.
  intros Hall. apply Forall_inv in Hall. destruct Hall as [v Hv].
  discriminate Hv.
Qed.

Lemma synthesized_responses_headers_witness :
  client (snd (handle_client_request agent GET_get
                 (plugin (true, false) (Some cached) (Some (true, false)))))
  = [build_http_response 200 (Some "OK") [("Content-Length", "19")]
       (Some "Response From Cache")] /\
  client (snd (handle_client_request agent GET_get
                 (plugin (true, true) (Some miss) (Some (true, true)))))
  = [build_http_response 502 (Some "Bad gateway")
       [("Server", agent); ("Connection", "close")]
       (Some "Ressource has not been cached yet. Please allow upstream.")] /\
  client (snd (handle_client_request agent GET_get
                 (plugin (true, false) (Some faulty) (Some (true, false)))))
  = [build_http_response 500 (Some "Internal server error")
       [("Server", agent); ("Connection", "close")] None].
Proof.
  assert (Hm : method GET_get <> Some httpMethods.CONNECT) by discriminate.
  split; [| split].
  - destruct (synthesized_responses_headers agent
                (plugin (true, false) (Some cached) (Some (true, false)))
                GET_get "") as [Hq _].
    exact (Hq cached false eq_refl eq_refl Hm).
  - destruct (synthesized_responses_headers agent
                (plugin (true, true) (Some miss) (Some (true, true)))
                GET_get "") as [Hq _].
    exact (Hq miss true eq_refl eq_refl Hm).
  - destruct (synthesized_responses_headers agent
                (plugin (true, false) (Some faulty) (Some (true, false)))
                GET_get "") as [Hq _].
    exact (Hq faulty false eq_refl eq_refl Hm).
Defined.

Lemma hooks_raise_before_snapshot_witness :
  handle_client_request agent GET_get
    (run agent [Set_store miss; Toggle true true] (__init__ true false))
  = (Raise AssertionError,
     run agent [Set_store miss; Toggle true true] (__init__ true false)).
Proof.
  apply (hooks_raise_before_snapshot agent true false
           [Set_store miss; Toggle true true] GET_get "").
  reflexivity.
Defined.

(** C8 as the spec words it fails: a second call of
    [before_upstream_connection] on the same plugin instance, after the
    events changed, replaces the snapshot the first call took. *)
Lemma snapshot_retaken_counterexample :
  let s1 := run agent [Set_store miss; Before_upstream_connection GET_get]
              (__init__ true false) in
  let s2 := run agent [Toggle false true; Before_upstream_connection GET_get]
              s1 in
  snapshot s1 = Some (true, false) /\ snapshot s2 <> snapshot s1.
Proof. split; [reflexivity | discriminate]. Qed.

Lemma snapshot_taken_by_before_upstream_connection_witness :
  let s1 := run agent
              [Before_upstream_connection GET_get; Toggle false true;
               Handle_client_request GET_get; Handle_upstream_chunk "chunk"]
              (plugin (true, false) (Some miss) None) in
  enabled s1 = false /\
  snapshot s1 = Some (true, false) /\
  calls (snd (handle_upstream_chunk "chunk" s1))
  = (calls s1 ++ [Cache_response_chunk "chunk"])%list /\
  fst (handle_client_request agent GET_get s1) = Return (Some GET_get).
Proof.
  intros s1.
  assert (Hevs : existsb is_before_upstream_connection
                   [Toggle false true; Handle_client_request GET_get;
                    @Handle_upstream_chunk ScriptedStore "chunk"] = false)
    by reflexivity.
  assert (Hon : enabled (plugin (true, false) (Some miss) None) = true)
    by reflexivity.
  assert (Hm : method GET_get <> Some httpMethods.CONNECT) by discriminate.
  destruct (snapshot_taken_by_before_upstream_connection agent
              (plugin (true, false) (Some miss) None) GET_get
              [Toggle false true; Handle_client_request GET_get;
               Handle_upstream_chunk "chunk"] Hevs)
    as [Hsnap [_ [_ Hact]]].
  destruct (Hact Hon miss GET_get GET_get "chunk" eq_refl)
    as [[_ Hchunk] [_ Hreq]].
  destruct (Hreq Hm eq_refl eq_refl) as [Hr _].
  split; [reflexivity |]. split; [exact Hsnap |].
  split; [exact Hchunk | exact Hr].
Defined.

(** C9 as the spec words it fails: what the hook returns is the message of
    the store, which need not be the request. *)
Lemma store_message_forwarded_counterexample :
  type GET_index = httpParserTypes.REQUEST_PARSER /\
  fst (cache_request rewriting GET_get) = Return GET_index /\
  fst (handle_client_request agent GET_get
         (plugin (true, false) (Some rewriting) (Some (true, false))))
  = Return (Some GET_index) /\
  fst (handle_client_request agent GET_get
         (plugin (true, false) (Some rewriting) (Some (true, false))))
  <> Return (Some GET_get).
Proof.
  split; [reflexivity | split; [reflexivity | split]];
    [reflexivity | discriminate].
Qed.

Lemma miss_forwards_store_message_witness :
  fst (handle_client_request agent GET_get
         (plugin (true, false) (Some miss) (Some (true, false))))
  = Return (Some GET_get) /\
  calls (run agent (map Handle_upstream_chunk ["HTTP/1.1 200 OK"; "body"])
           (snd (handle_client_request agent GET_get
                   (plugin (true, false) (Some miss) (Some (true, false))))))
  = [Cache_request GET_get; Cache_response_chunk "HTTP/1.1 200 OK";
     Cache_response_chunk "body"].
Proof.
  pose (s := plugin (true, false) (Some miss) (Some (true, false))).
  assert (Hs : snapshot s = Some (true, false)) by reflexivity.
  assert (Hst : store s = Some miss) by reflexivity.
  assert (Hm : method GET_get <> Some httpMethods.CONNECT) by discriminate.
  assert (Hc : fst (cache_request miss GET_get) = Return GET_get)
    by reflexivity.
  assert (Ht : type GET_get = httpParserTypes.REQUEST_PARSER) by reflexivity.
  destruct (miss_forwards_store_message agent s miss GET_get GET_get
              ["HTTP/1.1 200 OK"; "body"] Hs Hst Hm Hc Ht)
    as [Hr [_ [_ Hcalls]]].
  split; [exact Hr | exact Hcalls].
Defined.

Lemma enabled_hooks_require_store_witness :
  fst (before_upstream_connection CONNECT_tunnel (__init__ true false))
  = Raise AssertionError /\
  handle_client_request agent CONNECT_tunnel
    (plugin (true, false) None (Some (true, false)))
  = (Raise AssertionError, plugin (true, false) None (Some (true, false))).
Proof.
  split.
  - assert (Hst : store (@__init__ ScriptedStore true false) = None)
      by reflexivity.
    destruct (enabled_hooks_require_store agent (__init__ true false)
                CONNECT_tunnel "" Hst) as [Hb _].
    apply Hb. reflexivity.
  - pose (s := plugin (true, false) None (Some (true, false))).
    assert (Hst : store s = None) by reflexivity.
    destruct (enabled_hooks_require_store agent s CONNECT_tunnel "" Hst)
      as [_ [Hh _]].
    apply Hh. reflexivity.
Defined.

(** * The further properties on concrete connections *)

Lemma hooks_never_toggle_witness :
  enabled (run agent
             [Before_upstream_connection GET_get;
              Handle_client_request GET_get; Handle_upstream_chunk "chunk";
              On_upstream_connection_close]
             (plugin (true, true) (Some miss) None)) = true /\
  local (run agent
           [Before_upstream_connection GET_get;
            Handle_client_request GET_get; Handle_upstream_chunk "chunk";
            On_upstream_connection_close]
           (plugin (true, true) (Some miss) None)) = true.
Proof.
  apply (hooks_never_toggle agent
           [Before_upstream_connection GET_get;
            Handle_client_request GET_get; Handle_upstream_chunk "chunk";
            On_upstream_connection_close]
           (plugin (true, true) (Some miss) None)).
  reflexivity.
Defined.

Lemma hooks_keep_store_handle_witness :
  is_not_None
    (store (run agent
              [Before_upstream_connection GET_get;
               Handle_client_request GET_get; On_upstream_connection_close]
              (@__init__ ScriptedStore true false)))
  = false.
Proof.
  apply (hooks_keep_store_handle agent
           [Before_upstream_connection GET_get;
            Handle_client_request GET_get; On_upstream_connection_close]
           (@__init__ ScriptedStore true false)).
  reflexivity.
Defined.

Lemma handle_upstream_chunk_ends_as_store_witness :
  fst (handle_upstream_chunk "chunk"
         (mkState false false (Some broken) (Some false) (Some true)
            [] [] []))
  = Raise EIO.
Proof.
  pose (s := mkState false false (Some broken) (Some false) (Some true)
               [] [] []).
  assert (Hs : snapshot s = Some (true, false)) by reflexivity.
  assert (Hst : store s = Some broken) by reflexivity.
  destruct (handle_upstream_chunk_ends_as_store s broken false "chunk"
              Hs Hst) as [Hr _].
  exact Hr.
Defined.

Lemma close_is_forwarded_every_time_witness :
  calls (run agent (repeat On_upstream_connection_close 2)
           (plugin (true, false) (Some cached) (Some (true, false))))
  = [Close; Close].
Proof.
  pose (s := plugin (true, false) (Some cached) (Some (true, false))).
  assert (Hs : snapshot s = Some (true, false)) by reflexivity.
  assert (Hst : store s = Some cached) by reflexivity.
  destruct (close_is_forwarded_every_time agent 2 s cached false Hs Hst)
    as [_ Hc].
  exact Hc.
Defined.

Lemma CONNECT_never_reaches_the_store_witness :
  calls (snd (before_upstream_connection CONNECT_tunnel
                (plugin (true, true) (Some cached) None))) = [] /\
  fst (handle_client_request agent CONNECT_tunnel
         (plugin (true, true) (Some cached) (Some (true, true))))
  = Return (Some CONNECT_tunnel).
Proof.
  assert (Hm : method CONNECT_tunnel = Some httpMethods.CONNECT)
    by reflexivity.
  split.
  - destruct (CONNECT_never_reaches_the_store agent
                (plugin (true, true) (Some cached) None) CONNECT_tunnel Hm)
      as [[Hc _] _].
    exact Hc.
  - destruct (CONNECT_never_reaches_the_store agent
                (plugin (true, true) (Some cached) (Some (true, true)))
                CONNECT_tunnel Hm)
      as [_ [_ Hr]].
    apply (Hr cached true); reflexivity.
Defined.

Lemma recording_connection_witness :
  calls (run agent
           [Before_upstream_connection GET_get; Handle_client_request GET_get;
            Handle_upstream_chunk "HTTP/1.1 200 OK"; Handle_upstream_chunk "body";
            On_upstream_connection_close]
           (plugin (true, false) (Some miss) None))
  = [Is_cached GET_get; Cache_request GET_get;
     Cache_response_chunk "HTTP/1.1 200 OK"; Cache_response_chunk "body";
     Close].
Proof.
  pose (s := plugin (true, false) (Some miss) None).
  assert (He : enabled s = true) by reflexivity.
  assert (Hl : local s = false) by reflexivity.
  assert (Hst : store s = Some miss) by reflexivity.
  assert (Hm : method GET_get <> Some httpMethods.CONNECT) by discriminate.
  assert (Hmiss : fst (is_cached miss GET_get) <> Return true)
    by discriminate.
  assert (Hc : fst (cache_request (snd (is_cached miss GET_get)) GET_get)
               = Return GET_get) by reflexivity.
  assert (Ht : type GET_get = httpParserTypes.REQUEST_PARSER) by reflexivity.
  destruct (recording_connection agent s miss GET_get GET_get
              ["HTTP/1.1 200 OK"; "body"] He Hl Hst Hm Hmiss Hc Ht)
    as [_ [Hcalls _]].
  exact Hcalls.
Defined.

Lemma cached_connection_witness :
  fst (before_upstream_connection GET_get
         (plugin (true, true) (Some cached) None)) = Return None /\
  client (snd (handle_client_request agent GET_get
                 (snd (before_upstream_connection GET_get
                         (plugin (true, true) (Some cached) None)))))
  = [build_http_response 200 (Some "OK") [("Content-Length", "19")]
       (Some "Response From Cache")].
Proof.
  pose (s := plugin (true, true) (Some cached) None).
  assert (He : enabled s = true) by reflexivity.
  assert (Hst : store s = Some cached) by reflexivity.
  assert (Hm : method GET_get <> Some httpMethods.CONNECT) by discriminate.
  assert (Hhit : fst (is_cached cached GET_get) = Return true)
    by reflexivity.
  assert (Hc : fst (cache_request (snd (is_cached cached GET_get)) GET_get)
               = Return cached_200) by reflexivity.
  assert (Ht : type cached_200 = httpParserTypes.RESPONSE_PARSER)
    by reflexivity.
  assert (Hn : match code cached_200 with
               | Some c => int c = Some 200
               | None => 200 = 0
               end) by reflexivity.
  destruct (cached_connection agent s cached GET_get cached_200 200
              He Hst Hm Hhit Hc Ht Hn) as [Hr0 [_ [Hq _]]].
  split; [exact Hr0 | exact Hq].
Defined.

Lemma CacheResponsesPlugin_request_phase_returns_witness :
  exists v,
    fst (handle_client_request agent GET_get
           (run agent [Before_upstream_connection GET_get]
              (CacheResponsesPlugin__init__ broken true false)))
    = Return v.
Proof.
  destruct (CacheResponsesPlugin_request_phase_returns agent broken true false
              [Before_upstream_connection GET_get] GET_get)
    as [_ [_ Hr]].
  apply Hr. reflexivity.
Defined.

Lemma disabled_connection_stays_inert_witness :
  calls (run agent
           [Before_upstream_connection GET_get; Toggle true false;
            Handle_client_request GET_get; Handle_upstream_chunk "chunk";
            On_upstream_connection_close]
           (plugin (false, false) (Some cached) None))
  = [].
Proof.
  apply (disabled_connection_stays_inert agent
           (plugin (false, false) (Some cached) None) GET_get
           [Toggle true false; Handle_client_request GET_get;
            Handle_upstream_chunk "chunk"; On_upstream_connection_close]).
  - reflexivity.
  - reflexivity.
Defined.

Lemma replay_keeps_distinct_headers_witness :
  rsp_headers (cached_response 200 cached_200) = [("Content-Length", "19")].
Proof.
  apply (replay_keeps_distinct_headers 200 cached_200).
  repeat constructor. intros [].
Defined.

Lemma local_mode_forwards_only_on_fault_witness :
  calls (snd (handle_client_request agent GET_get
                (plugin (true, true) (Some faulty) (Some (true, true)))))
  = [Cache_request GET_get; Is_cached GET_get].
Proof.
  pose (s := plugin (true, true) (Some faulty) (Some (true, true))).
  assert (Hs : snapshot s = Some (true, true)) by reflexivity.
  assert (Hst : store s = Some faulty) by reflexivity.
  assert (Hm : method GET_get <> Some httpMethods.CONNECT) by discriminate.
  assert (Hr : fst (handle_client_request agent GET_get s)
               = Return (Some GET_get)) by reflexivity.
  destruct (local_mode_forwards_only_on_fault agent s faulty GET_get GET_get
              Hs Hst Hm Hr) as [_ [Hc _]].
  exact Hc.
Defined.
